(** * Financial analytics pipeline: ingestion, parsing, idempotent storage

    A shallow embedding of [src/src/data_fetcher.py], [src/src/main.py] and
    [src/src/database.py]:
    - Python exceptions are the constructors of [exn]; a computation that
      may raise returns [result];
    - the JSON document returned by [response.json()] is [json]; Python
      dicts, whose iteration follows insertion order, are association lists
      kept in insertion order with [py_dict_set];
    - Python floats are Rocq's primitive binary64 floats;
    - the stateful parts (the throttled batch fetch, the session-based
      upsert loop) thread an explicit state and keep it when an exception
      escapes, as side effects already performed are not undone. *)

From Stdlib Require Import List String Ascii ZArith Bool Lia.
From Stdlib Require Import Floats.
Import ListNotations.
Open Scope string_scope.
Open Scope list_scope.
Open Scope nat_scope.
#[local] Set Warnings "-register-all".

(** ** Python exceptions and fallible computations *)

Inductive exn :=
| KeyError
| ValueError
| TypeError
| AttributeError
| OverflowError
| RequestException   (** raised by [requests.get] or [raise_for_status] *)
| DBError.           (** raised by the SQLAlchemy session *)

Inductive result (A : Type) :=
| Ok (a : A)
| Raise (e : exn).
Arguments Ok {A} a.
Arguments Raise {A} e.

Definition rbind {A B} (m : result A) (k : A -> result B) : result B :=
  match m with Ok a => k a | Raise e => Raise e end.

Notation "'let?' x ':=' m 'in' k" := (rbind m (fun x => k))
  (at level 200, x name, m at level 100, right associativity).

(** ** JSON values as produced by [json.loads] *)

Inductive json :=
| JNull
| JBool (b : bool)
| JInt (z : Z)
| JFloat (f : float)
| JStr (s : string)
| JArr (xs : list json)
| JObj (kvs : list (string * json)).

(** Python dict with string keys: assignment [d[k] = v] replaces the value
    in place when [k] is present and appends otherwise. *)
Fixpoint py_dict_set {V} (d : list (string * V)) (k : string) (v : V)
  : list (string * V) :=
  match d with
  | [] => [(k, v)]
  | (k', v') :: d' =>
      if String.eqb k k' then (k, v) :: d' else (k', v') :: py_dict_set d' k v
  end.

Fixpoint py_dict_get {V} (d : list (string * V)) (k : string) : option V :=
  match d with
  | [] => None
  | (k', v) :: d' => if String.eqb k k' then Some v else py_dict_get d' k
  end.

(** [json.loads] builds a dict from the object's members in order, so a
    repeated key keeps its first position and its last value. *)
Definition dict_of_members (kvs : list (string * json)) : list (string * json) :=
  fold_left (fun d kv => py_dict_set d (fst kv) (snd kv)) kvs [].

Fixpoint str_prefix (p s : string) : bool :=
  match p, s with
  | EmptyString, _ => true
  | String a p', String b s' => Ascii.eqb a b && str_prefix p' s'
  | String _ _, EmptyString => false
  end.

Fixpoint str_contains (p s : string) : bool :=
  str_prefix p s ||
  match s with EmptyString => false | String _ s' => str_contains p s' end.

(** Python [k in data] for a string [k]. *)
Definition py_in (k : string) (data : json) : result bool :=
  match data with
  | JObj kvs => Ok (if py_dict_get (dict_of_members kvs) k then true else false)
  | JArr xs =>
      Ok (existsb (fun x => match x with JStr s => String.eqb s k | _ => false end) xs)
  | JStr s => Ok (str_contains k s)
  | JNull | JBool _ | JInt _ | JFloat _ => Raise TypeError
  end.

(** Python [data[k]] for a string [k]. *)
Definition py_getitem (data : json) (k : string) : result json :=
  match data with
  | JObj kvs =>
      match py_dict_get (dict_of_members kvs) k with
      | Some v => Ok v
      | None => Raise KeyError
      end
  | _ => Raise TypeError
  end.

(** Python [len(x)]. *)
Definition py_len (x : json) : result nat :=
  match x with
  | JObj kvs => Ok (List.length (dict_of_members kvs))
  | JArr xs => Ok (List.length xs)
  | JStr s => Ok (String.length s)
  | JNull | JBool _ | JInt _ | JFloat _ => Raise TypeError
  end.

(** Python truth value. *)
Definition py_truthy (x : json) : bool :=
  match x with
  | JNull => false
  | JBool b => b
  | JInt z => negb (Z.eqb z 0)
  | JFloat f => negb (PrimFloat.eqb f 0)
  | JStr s => negb (String.eqb s "")
  | JArr xs => negb (Nat.eqb (List.length xs) 0)
  | JObj kvs => negb (Nat.eqb (List.length kvs) 0)
  end.

(** ** [StockDataFetcher.fetch_daily_data] *)

(** What the HTTP round trip of one request produced: an exception of
    [requests.get], [raise_for_status] or [response.json()], or the decoded
    JSON body. *)
Inductive response :=
| Transport (e : exn)
| Body (data : json).

(** The body of the [try] block, lines 35-54. The log line of the success
    path evaluates [len(time_series)]. *)
Definition fetch_daily_data_try (symbol : string) (data : json) : result (option json) :=
  let? err := py_in "Error Message" data in
  if err then let? _ := py_getitem data "Error Message" in Ok None else
  let? note := py_in "Note" data in
  if note then let? _ := py_getitem data "Note" in Ok None else
  let? has := py_in "Time Series (Daily)" data in
  if negb has then Ok None else
  let? time_series := py_getitem data "Time Series (Daily)" in
  let? _ := py_len time_series in
  Ok (Some time_series).

(** [except Exception] turns every exception into [None]: the function
    never raises, hence its [option] type. *)
Definition fetch_daily_data (symbol : string) (resp : response) : option json :=
  match resp with
  | Transport _ => None
  | Body data =>
      match fetch_daily_data_try symbol data with
      | Ok r => r
      | Raise _ => None
      end
  end.

(** ** Python's [float()], [int()] and [datetime.strptime] *)

(** Strings are ASCII; [str.isspace] holds of the characters 9-13 and 28-32. *)
Definition py_isspace (c : ascii) : bool :=
  let n := nat_of_ascii c in ((9 <=? n) && (n <=? 13)) || ((28 <=? n) && (n <=? 32)).

Definition is_digit (c : ascii) : bool :=
  let n := nat_of_ascii c in (48 <=? n) && (n <=? 57).

Definition digit_val (c : ascii) : Z := Z.of_nat (nat_of_ascii c - 48).

Fixpoint drop_spaces (cs : list ascii) : list ascii :=
  match cs with
  | c :: cs' => if py_isspace c then drop_spaces cs' else cs
  | [] => []
  end.

(** [str.strip()]. *)
Definition py_strip (cs : list ascii) : list ascii :=
  rev (drop_spaces (rev (drop_spaces cs))).

(** The digits after the first one of a [digitpart]: a single underscore
    may separate two digits. *)
Fixpoint digits_more (cs : list ascii) : list ascii * list ascii :=
  match cs with
  | c :: r =>
      if is_digit c then let '(ds, rest) := digits_more r in (c :: ds, rest)
      else if Ascii.eqb c "_" then
        match r with
        | d :: r' =>
            if is_digit d then let '(ds, rest) := digits_more r' in (d :: ds, rest)
            else ([], cs)
        | [] => ([], cs)
        end
      else ([], cs)
  | [] => ([], [])
  end.

(** [digitpart ::= digit (["_"] digit)*], read greedily. *)
Definition digitpart (cs : list ascii) : option (list ascii * list ascii) :=
  match cs with
  | c :: r => if is_digit c then let '(ds, rest) := digits_more r in Some (c :: ds, rest)
              else None
  | [] => None
  end.

Definition digits_value (ds : list ascii) : Z :=
  fold_left (fun acc d => acc * 10 + digit_val d)%Z ds 0%Z.

(** An optional sign; [true] for a minus sign. *)
Definition read_sign (cs : list ascii) : bool * list ascii :=
  match cs with
  | c :: r => if Ascii.eqb c "-" then (true, r)
              else if Ascii.eqb c "+" then (false, r) else (false, cs)
  | [] => (false, [])
  end.

Definition lower (c : ascii) : ascii :=
  let n := nat_of_ascii c in
  if (65 <=? n) && (n <=? 90) then ascii_of_nat (n + 32) else c.

Definition list_ascii_eqb (a b : list ascii) : bool :=
  String.eqb (string_of_list_ascii a) (string_of_list_ascii b).

(** The binary64 value nearest to [(-1)^neg * m * 10^e10], ties to even,
    as CPython's correctly rounded [float()] computes it; overflow gives an
    infinity and underflow a zero, as in Python. *)
Definition decimal_to_float (neg : bool) (m e10 : Z) : float :=
  if Z.eqb m 0 then (if neg then (-0)%float else 0%float)
  else if Z.leb 0 e10 then
    SF2Prim (binary_normalize FloatOps.prec FloatOps.emax
               (if neg then - (m * 10 ^ e10) else m * 10 ^ e10)%Z 0 false)
  else
    let '(q, e', l) := SFdiv_core_binary FloatOps.prec FloatOps.emax m 0 (10 ^ (- e10)) 0 in
    SF2Prim (binary_round_aux FloatOps.prec FloatOps.emax neg q e' l).

(** The exponent part [(e|E) [sign] digitpart], or nothing. *)
Definition read_exponent (cs : list ascii) : option (Z * list ascii) :=
  match cs with
  | c :: r =>
      if Ascii.eqb (lower c) "e" then
        let '(neg, r') := read_sign r in
        match digitpart r' with
        | Some (ds, rest) => Some ((if neg then - digits_value ds else digits_value ds)%Z, rest)
        | None => None
        end
      else Some (0%Z, cs)
  | [] => Some (0%Z, [])
  end.

(** [float(s)] for a string [s]: [ws] [sign] (["inf"|"infinity"|"nan"] |
    digitpart ["." [digitpart]] [exponent] | "." digitpart [exponent]) [ws]. *)
Definition py_float_of_string (s : string) : result float :=
  let '(neg, body) := read_sign (py_strip (list_ascii_of_string s)) in
  let low := map lower body in
  if list_ascii_eqb low (list_ascii_of_string "inf")
     || list_ascii_eqb low (list_ascii_of_string "infinity") then
    Ok (if neg then PrimFloat.neg_infinity else PrimFloat.infinity)
  else if list_ascii_eqb low (list_ascii_of_string "nan") then Ok PrimFloat.nan
  else
    let mantissa :=
      match digitpart body with
      | Some (ip, r) =>
          match r with
          | c :: r' =>
              if Ascii.eqb c "." then
                match digitpart r' with
                | Some (fp, r'') => Some (ip, fp, r'')
                | None => Some (ip, [], r')
                end
              else Some (ip, [], r)
          | [] => Some (ip, [], r)
          end
      | None =>
          match body with
          | c :: r' =>
              if Ascii.eqb c "." then
                match digitpart r' with
                | Some (fp, r'') => Some ([], fp, r'')
                | None => None
                end
              else None
          | [] => None
          end
      end in
    match mantissa with
    | Some (ip, fp, r) =>
        match read_exponent r with
        | Some (x, []) =>
            Ok (decimal_to_float neg (digits_value (ip ++ fp)) (x - Z.of_nat (List.length fp)))
        | _ => Raise ValueError
        end
    | None => Raise ValueError
    end.

(** [int(s)] for a string [s] in base 10: [ws] [sign] digitpart [ws]. *)
Definition py_int_of_string (s : string) : result Z :=
  let '(neg, body) := read_sign (py_strip (list_ascii_of_string s)) in
  match digitpart body with
  | Some (ds, []) => Ok (if neg then - digits_value ds else digits_value ds)%Z
  | _ => Raise ValueError
  end.

(** [float(int)]: correctly rounded, [OverflowError] beyond the range. *)
Definition float_of_int (z : Z) : result float :=
  let f := SF2Prim (binary_normalize FloatOps.prec FloatOps.emax z 0 false) in
  if PrimFloat.is_infinity f then Raise OverflowError else Ok f.

(** [int(float)]: truncation toward zero. *)
Definition int_of_float (f : float) : result Z :=
  match Prim2SF f with
  | S754_nan => Raise ValueError
  | S754_infinity _ => Raise OverflowError
  | S754_zero _ => Ok 0%Z
  | S754_finite neg m e =>
      let a := (if Z.leb 0 e then Z.shiftl (Zpos m) e else Z.shiftr (Zpos m) (- e))%Z in
      Ok (if neg then - a else a)%Z
  end.

(** [float(x)] for a JSON value. *)
Definition py_float (x : json) : result float :=
  match x with
  | JStr s => py_float_of_string s
  | JInt z => float_of_int z
  | JFloat f => Ok f
  | JBool b => Ok (if b then 1%float else 0%float)
  | JNull | JArr _ | JObj _ => Raise TypeError
  end.

(** [int(x)] for a JSON value. *)
Definition py_int (x : json) : result Z :=
  match x with
  | JStr s => py_int_of_string s
  | JInt z => Ok z
  | JFloat f => int_of_float f
  | JBool b => Ok (if b then 1%Z else 0%Z)
  | JNull | JArr _ | JObj _ => Raise TypeError
  end.

(** A [datetime] produced by [strptime(.., '%Y-%m-%d')]: midnight of a day. *)
Record datetime := mkdatetime { dt_year : Z; dt_month : Z; dt_day : Z }.

(** Alternatives of the regular expressions of [_strptime]: a sequence of
    character classes matched against a prefix. *)
Definition char_class := ascii -> bool.

Definition in_range (lo hi : ascii) : char_class :=
  fun c => (nat_of_ascii lo <=? nat_of_ascii c) && (nat_of_ascii c <=? nat_of_ascii hi).

Definition is_char (a : ascii) : char_class := fun c => Ascii.eqb a c.

Fixpoint match_alt (a : list char_class) (cs : list ascii) : option (list ascii * list ascii) :=
  match a with
  | [] => Some ([], cs)
  | p :: a' =>
      match cs with
      | c :: cs' =>
          if p c then
            match match_alt a' cs' with
            | Some (t, rest) => Some (c :: t, rest)
            | None => None
            end
          else None
      | [] => None
      end
  end.

(** [%Y] is [\d\d\d\d]. *)
Definition re_Y : list (list char_class) := [[is_digit; is_digit; is_digit; is_digit]].
(** [%m] is [1[0-2]|0[1-9]|[1-9]]. *)
Definition re_m : list (list char_class) :=
  [[is_char "1"; in_range "0" "2"]; [is_char "0"; in_range "1" "9"]; [in_range "1" "9"]].
(** [%d] is [3[01]|[12]\d|0[1-9]|[1-9]| [1-9]]. *)
Definition re_d : list (list char_class) :=
  [[is_char "3"; in_range "0" "1"]; [in_range "1" "2"; is_digit];
   [is_char "0"; in_range "1" "9"]; [in_range "1" "9"]; [is_char " "; in_range "1" "9"]].

(** The first alternative, in order, that matches a prefix and for which the
    rest of the pattern [k] matches: the backtracking of [re.match]. *)
Fixpoint match_first {B} (alts : list (list char_class)) (cs : list ascii)
  (k : list ascii -> list ascii -> option B) : option B :=
  match alts with
  | [] => None
  | a :: alts' =>
      match match_alt a cs with
      | Some (t, rest) =>
          match k t rest with
          | Some b => Some b
          | None => match_first alts' cs k
          end
      | None => match_first alts' cs k
      end
  end.

Definition match_dash (cs : list ascii) : option (list ascii) :=
  match cs with c :: r => if Ascii.eqb c "-" then Some r else None | [] => None end.

(** [re.match] of [%Y-%m-%d]: the matched texts of the three groups and the
    unmatched rest of the string. *)
Definition match_ymd (cs : list ascii)
  : option (list ascii * list ascii * list ascii * list ascii) :=
  match_first re_Y cs (fun y r1 =>
    match match_dash r1 with
    | None => None
    | Some r2 =>
        match_first re_m r2 (fun m r3 =>
          match match_dash r3 with
          | None => None
          | Some r4 => match_first re_d r4 (fun d r5 => Some (y, m, d, r5))
          end)
    end).

Definition is_leap (y : Z) : bool :=
  (Z.eqb (y mod 4) 0 && negb (Z.eqb (y mod 100) 0)) || Z.eqb (y mod 400) 0.

Definition days_in_month (y m : Z) : Z :=
  if Z.eqb m 2 then (if is_leap y then 29 else 28)%Z
  else if existsb (Z.eqb m) [4; 6; 9; 11]%Z then 30%Z else 31%Z.

(** [datetime.strptime(date_str, '%Y-%m-%d')]: [ValueError] when the regular
    expression does not match, when unconverted data remains, or when the
    date does not exist. *)
Definition strptime_ymd (date_str : string) : result datetime :=
  match match_ymd (list_ascii_of_string date_str) with
  | None => Raise ValueError
  | Some (yt, mt, dt, rest) =>
      match rest with
      | _ :: _ => Raise ValueError
      | [] =>
          let? y := py_int_of_string (string_of_list_ascii yt) in
          let? m := py_int_of_string (string_of_list_ascii mt) in
          let? d := py_int_of_string (string_of_list_ascii dt) in
          if (Z.leb 1 y && Z.leb y 9999 && Z.leb 1 m && Z.leb m 12
              && Z.leb 1 d && Z.leb d (days_in_month y m))%bool
          then Ok (mkdatetime y m d) else Raise ValueError
      end
  end.

(** ** The [StockPrice] row and [StockDataFetcher.parse_stock_data] *)

(** The columns of [stock_prices] but the autoincrement [id]; also the
    record dict built by the parser, whose keys are these column names. *)
Record StockPrice := mkStockPrice {
  symbol : string;
  date : datetime;
  open_price : float;
  high_price : float;
  low_price : float;
  close_price : float;
  volume : Z;
  created_at : Z
}.

(** [float(values[k])]. *)
Definition float_field (values : json) (k : string) : result float :=
  let? v := py_getitem values k in py_float v.

(** The dict literal of lines 65-74, its entries evaluated in order;
    [datetime.now()] is the reading [now]. *)
Definition parse_entry (now : Z) (symbol : string) (date_str : string) (values : json)
  : result StockPrice :=
  let? d := strptime_ymd date_str in
  let? o := float_field values "1. open" in
  let? h := float_field values "2. high" in
  let? l := float_field values "3. low" in
  let? c := float_field values "4. close" in
  let? vol := (let? v := py_getitem values "5. volume" in py_int v) in
  Ok (mkStockPrice symbol d o h l c vol now).

(** The loop of lines 63-78: [except (KeyError, ValueError)] skips the day,
    any other exception leaves the function. *)
Fixpoint parse_items (now : Z) (symbol : string) (items : list (string * json))
  (parsed_data : list StockPrice) : result (list StockPrice) :=
  match items with
  | [] => Ok parsed_data
  | (date_str, values) :: rest =>
      match parse_entry now symbol date_str values with
      | Ok record => parse_items now symbol rest (parsed_data ++ [record])
      | Raise KeyError | Raise ValueError => parse_items now symbol rest parsed_data
      | Raise e => Raise e
      end
  end.

(** [time_series_data.items()] exists only on a dict. *)
Definition parse_stock_data (now : Z) (symbol : string) (time_series_data : json)
  : result (list StockPrice) :=
  match time_series_data with
  | JObj kvs => parse_items now symbol (dict_of_members kvs) []
  | _ => Raise AttributeError
  end.

(** ** [StockDataFetcher.fetch_multiple_symbols] *)

(** Observable effects of the batch: the [i]-th request (for [symbol]) and
    each [time.sleep(delay)]. *)
Inductive event :=
| Request (i : nat) (symbol : string)
| Sleep (delay : Z).

Record fetch_state := mkfetch_state {
  trace : list event;
  all_data : list (string * list StockPrice)
}.

Section Batch.
(** [now]: the reading of [datetime.now()]; [resp i s]: what the [i]-th
    request, the one for symbol [s], produced. *)
Variable now : Z.
Variable resp : nat -> string -> response.

(** The loop of lines 86-100, from index [i] on; [n] is [len(symbols)].
    An exception of the parser leaves the loop with the effects so far. *)
Fixpoint fetch_loop (delay : Z) (n i : nat) (symbols : list string) (st : fetch_state)
  : fetch_state * result unit :=
  match symbols with
  | [] => (st, Ok tt)
  | symbol :: rest =>
      let st1 := mkfetch_state (trace st ++ [Request i symbol]) (all_data st) in
      let skip := fetch_loop delay n (S i) rest
                    (mkfetch_state (trace st1) (py_dict_set (all_data st1) symbol [])) in
      match fetch_daily_data symbol (resp i symbol) with
      | Some time_series =>
          if py_truthy time_series then
            match parse_stock_data now symbol time_series with
            | Ok parsed_data =>
                let st2 := mkfetch_state (trace st1) (py_dict_set (all_data st1) symbol parsed_data) in
                let st3 := if i <? n - 1
                           then mkfetch_state (trace st2 ++ [Sleep delay]) (all_data st2)
                           else st2 in
                fetch_loop delay n (S i) rest st3
            | Raise e => (st1, Raise e)
            end
          else skip
      | None => skip
      end
  end.

(** Returns the trace and either [all_data] or the escaping exception. *)
Definition fetch_multiple_symbols (symbols : list string) (delay : Z)
  : list event * result (list (string * list StockPrice)) :=
  let '(st, r) := fetch_loop delay (List.length symbols) 0 symbols (mkfetch_state [] []) in
  (trace st, let? _ := r in Ok (all_data st)).
End Batch.

(** ** The database and [FinancialAnalyticsPipeline.fetch_and_store_data] *)

(** The committed rows of [stock_prices], the rows added to the session and
    not yet committed, and the number of database round trips so far. *)
Record db := mkdb {
  committed : list StockPrice;
  pending : list StockPrice;
  ops : nat
}.

Definition date_eqb (a b : datetime) : bool :=
  Z.eqb (dt_year a) (dt_year b) && Z.eqb (dt_month a) (dt_month b) && Z.eqb (dt_day a) (dt_day b).

(** [filter_by(symbol=.., date=..)]. *)
Definition same_key (s : string) (d : datetime) (r : StockPrice) : bool :=
  String.eqb (symbol r) s && date_eqb (date r) d.

Record store_state := mkstore_state {
  sdb : db;
  total_stored : nat;
  total_skipped : nat
}.

Section Store.
(** [dbfail k]: the [k]-th round trip to the database raises. *)
Variable dbfail : nat -> bool.

(** [session.query(StockPrice).filter_by(..).first()]. The session
    autoflushes, so the query also sees the rows added and not committed. *)
Definition query_first (d : db) (s : string) (dt : datetime)
  : db * result (option StockPrice) :=
  let d' := mkdb (committed d) (pending d) (S (ops d)) in
  if dbfail (ops d) then (d', Raise DBError)
  else (d', Ok (find (same_key s dt) (committed d ++ pending d))).

Definition commit (d : db) : db * result unit :=
  if dbfail (ops d) then (mkdb (committed d) (pending d) (S (ops d)), Raise DBError)
  else (mkdb (committed d ++ pending d) [] (S (ops d)), Ok tt).

Definition rollback (d : db) : db := mkdb (committed d) [] (ops d).

(** [session.close()]: what is still pending is discarded. *)
Definition close (d : db) : db := mkdb (committed d) [] (ops d).

(** The inner loop, lines 55-67. [session.add] is no round trip. *)
Fixpoint store_records (records : list StockPrice) (st : store_state)
  : store_state * result unit :=
  match records with
  | [] => (st, Ok tt)
  | record :: rest =>
      let '(d1, r) := query_first (sdb st) (symbol record) (date record) in
      match r with
      | Raise e => (mkstore_state d1 (total_stored st) (total_skipped st), Raise e)
      | Ok (Some _) =>
          store_records rest (mkstore_state d1 (total_stored st) (S (total_skipped st)))
      | Ok None =>
          store_records rest
            (mkstore_state (mkdb (committed d1) (pending d1 ++ [record]) (ops d1))
               (S (total_stored st)) (total_skipped st))
      end
  end.

(** The outer loop, lines 52-70: one commit per symbol. *)
Fixpoint store_symbols (data : list (string * list StockPrice)) (st : store_state)
  : store_state * result unit :=
  match data with
  | [] => (st, Ok tt)
  | (sym, records) :: rest =>
      let '(st1, r) := store_records records st in
      match r with
      | Raise e => (st1, Raise e)
      | Ok _ =>
          let '(d2, r2) := commit (sdb st1) in
          let st2 := mkstore_state d2 (total_stored st1) (total_skipped st1) in
          match r2 with
          | Raise e => (st2, Raise e)
          | Ok _ => store_symbols rest st2
          end
      end
  end.

(** The [try]/[except]/[finally] of lines 47-83, after the fetch, in a
    new session: [Some (stored, skipped)] when it logs these totals and
    returns [True], [None] when it rolls back and returns [False].
    [session.close()] discards what is still pending. *)
Definition store_all_data (data : list (string * list StockPrice)) (d : db)
  : db * option (nat * nat) :=
  let '(st, r) := store_symbols data (mkstore_state (mkdb (committed d) [] (ops d)) 0 0) in
  match r with
  | Ok _ => (close (sdb st), Some (total_stored st, total_skipped st))
  | Raise _ => (close (rollback (sdb st)), None)
  end.

(** [fetch_and_store_data]: the batch fetch runs before the [try], so an
    exception escaping it escapes this method too. *)
Definition fetch_and_store_data (now : Z) (resp : nat -> string -> response)
  (symbols : list string) (d : db) : list event * db * result (option (nat * nat)) :=
  let '(tr, r) := fetch_multiple_symbols now resp symbols 12 in
  match r with
  | Raise e => (tr, d, Raise e)
  | Ok data => let '(d', out) := store_all_data data d in (tr, d', Ok out)
  end.

(** [FinancialAnalyticsPipeline.run]: [conn_ok] and [tables_ok] are the
    results of [test_connection()] and [create_tables()]. The report never
    raises (it catches [Exception]) and changes no row. Returns [True] only
    when the run reaches the report. *)
Definition run (conn_ok tables_ok : bool) (now : Z) (resp : nat -> string -> response)
  (symbols : list string) (d : db) : db * result bool :=
  if negb conn_ok then (d, Ok false)
  else if negb tables_ok then (d, Ok false)
  else
    let '(_, d', r) := fetch_and_store_data now resp symbols d in
    match r with
    | Raise e => (d', Raise e)
    | Ok None => (d', Ok false)
    | Ok (Some _) => (d', Ok true)
    end.
End Store.

(** [self.symbols]. *)
Definition pipeline_symbols : list string := ["JPM"; "BAC"; "WFC"; "GS"; "MS"].

(** ** The performance metrics of [generate_analytics_report] *)

(** The format-spec mini-language of [float.__format__]:
    [[[fill]align][sign]["z"]["#"]["0"][width][grouping]["." precision][type]];
    anything left over is [ValueError: Invalid format specifier]. *)
Definition is_align (c : ascii) : bool :=
  existsb (Ascii.eqb c) ["<"; ">"; "="; "^"]%char.

Definition skip_if (p : ascii -> bool) (cs : list ascii) : list ascii :=
  match cs with c :: r => if p c then r else cs | [] => [] end.

Fixpoint skip_digits (cs : list ascii) : list ascii :=
  match cs with c :: r => if is_digit c then skip_digits r else cs | [] => [] end.

Definition float_format_check (spec : string) : result unit :=
  let cs := list_ascii_of_string spec in
  let cs := match cs with
            | _ :: a :: r => if is_align a then r else skip_if is_align cs
            | _ => skip_if is_align cs
            end in
  let cs := skip_if (fun c => existsb (Ascii.eqb c) ["+"; "-"; " "]%char) cs in
  let cs := skip_if (is_char "z") cs in
  let cs := skip_if (is_char "#") cs in
  let cs := skip_if (is_char "0") cs in
  let cs := skip_digits cs in
  let cs := skip_if (fun c => Ascii.eqb c "," || Ascii.eqb c "_") cs in
  let prec :=
    match cs with
    | c :: r =>
        if Ascii.eqb c "." then
          match r with
          | d :: _ => if is_digit d then Some (skip_digits r) else None
          | [] => None
          end
        else Some cs
    | [] => Some cs
    end in
  match prec with
  | None => Raise ValueError
  | Some cs =>
      let cs := skip_if (fun c => existsb (Ascii.eqb c) ["e"; "E"; "f"; "F"; "g"; "G"; "n"; "%"]%char) cs in
      match cs with [] => Ok tt | _ => Raise ValueError end
  end.

(** A line of the "Performance Metrics" table: the values it prints. *)
Record metric_line := mkmetric_line {
  m_symbol : string;
  m_change : float;
  m_pct_change : float
}.

Definition date_ltb (a b : datetime) : bool :=
  (Z.ltb (dt_year a) (dt_year b))
  || (Z.eqb (dt_year a) (dt_year b)
      && (Z.ltb (dt_month a) (dt_month b)
          || (Z.eqb (dt_month a) (dt_month b) && Z.ltb (dt_day a) (dt_day b)))).

(** [ORDER BY date DESC], by insertion. *)
Fixpoint insert_desc (r : StockPrice) (l : list StockPrice) : list StockPrice :=
  match l with
  | [] => [r]
  | x :: l' => if date_ltb (date x) (date r) then r :: l else x :: insert_desc r l'
  end.

Definition sort_by_date_desc (l : list StockPrice) : list StockPrice :=
  fold_right insert_desc [] l.

(** [session.query(StockPrice).filter_by(symbol=symbol)
    .order_by(StockPrice.date.desc()).limit(2).all()]. *)
Definition last_two (table : list StockPrice) (s : string) : list StockPrice :=
  firstn 2 (sort_by_date_desc (filter (fun r => String.eqb (symbol r) s) table)).

(** Lines 129-130. *)
Definition day_change (current previous : StockPrice) : float * float :=
  let change := (close_price current - close_price previous)%float in
  (change, (change / close_price previous * 100)%float).

(** The loop of lines 120-132. The f-string of line 132 formats [symbol]
    with [<10], [change] with [+.2f:<13] and [pct_change] with [+.2f], in
    this order; an exception ends the loop and is caught by line 138. *)
Fixpoint metrics_loop (table : list StockPrice) (symbols : list string)
  : list metric_line * result unit :=
  match symbols with
  | [] => ([], Ok tt)
  | s :: rest =>
      match last_two table s with
      | [current; previous] =>
          let '(change, pct_change) := day_change current previous in
          match (let? _ := float_format_check "+.2f:<13" in float_format_check "+.2f") with
          | Ok _ =>
              let '(out, r) := metrics_loop table rest in
              (mkmetric_line s change pct_change :: out, r)
          | Raise e => ([], Raise e)
          end
      | _ => metrics_loop table rest
      end
  end.

(** The metrics section of the report over [self.symbols]: the lines
    printed; an exception is logged and ends the report. *)
Definition performance_metrics (table : list StockPrice) : list metric_line :=
  fst (metrics_loop table pipeline_symbols).

(** ** [DatabaseManager.get_table_stats] and the rest of [generate_analytics_report] *)












(** Whether every value of a time series is a JSON object whose every
    member is a string: the shape of the provider's day entries. *)
Definition all_string_fields (kvs : list (string * json)) : bool :=
  forallb (fun kv => match snd kv with
                     | JObj fields =>
                         forallb (fun f => match snd f with JStr _ => true | _ => false end) fields
                     | _ => false
                     end) kvs.



(** ** Derived notions used in the statements *)

(** The exceptions the parser catches per day. *)
Definition caught (e : exn) : Prop := e = KeyError \/ e = ValueError.


(** No two rows share the [(symbol, date)] key. *)
Fixpoint keys_unique (l : list StockPrice) : bool :=
  match l with
  | [] => true
  | x :: l' => negb (existsb (same_key (symbol x) (date x)) l') && keys_unique l'
  end.

(** The number of parsed records over all symbols of [all_data]. *)
Definition total_records (data : list (string * list StockPrice)) : nat :=
  list_sum (map (fun p => List.length (snd p)) data).

(** The tables reachable from an empty table by runs of the store phase. *)
Inductive reachable : list StockPrice -> Prop :=
| reachable_empty : reachable []
| reachable_step (dbfail : nat -> bool) (data : list (string * list StockPrice)) (d : db) :
    reachable (committed d) -> reachable (committed (fst (store_all_data dbfail data d))).

(** The symbols requested, in order. *)
Fixpoint requested (tr : list event) : list string :=
  match tr with
  | [] => []
  | Request _ s :: tr' => s :: requested tr'
  | Sleep _ :: tr' => requested tr'
  end.

Fixpoint count_sleeps (tr : list event) : nat :=
  match tr with
  | [] => 0
  | Sleep _ :: tr' => S (count_sleeps tr')
  | Request _ _ :: tr' => count_sleeps tr'
  end.

(** Whether the [i]-th request, for [s], gave a truthy series. *)
Definition fetched_nonempty (resp : nat -> string -> response) (i : nat) (s : string) : bool :=
  match fetch_daily_data s (resp i s) with
  | Some ts => py_truthy ts
  | None => false
  end.

(** The trace of a batch that returns: each request, followed by a sleep
    when it is not the last one and its fetch gave a non-empty series. *)
Fixpoint throttled_trace (resp : nat -> string -> response) (delay : Z) (n i : nat)
  (symbols : list string) : list event :=
  match symbols with
  | [] => []
  | s :: rest =>
      Request i s :: (if (i <? n - 1) && fetched_nonempty resp i s then [Sleep delay] else [])
        ++ throttled_trace resp delay n (S i) rest
  end.

(** ** Sample provider responses and inputs *)

(** A day-entry of the success shape, its fields as strings. *)
Definition day_entry (o h l c v : string) : json :=
  JObj [("1. open", JStr o); ("2. high", JStr h); ("3. low", JStr l);
        ("4. close", JStr c); ("5. volume", JStr v)].

Definition sample_series : json :=
  JObj [("2024-01-02", day_entry "150.50" "154.00" "150.10" "153.00" "1200");
        ("2024-01-01", day_entry "149.00" "151.00" "148.50" "150.00" "1000")].

Definition success_body : response :=
  Body (JObj [("Meta Data", JObj [("2. Symbol", JStr "JPM")]);
              ("Time Series (Daily)", sample_series)]).

Definition note_body : response :=
  Body (JObj [("Note", JStr "Our standard API call frequency is 5 calls per minute.")]).

Definition error_body : response :=
  Body (JObj [("Error Message", JStr "Invalid API call.")]).

(** A JSON object of another shape. *)
Definition other_body : response := Body (JObj [("Information", JStr "premium endpoint")]).

Definition transport_failure : response := Transport RequestException.

(** Every request succeeds except those for [BAC], which are rate-limited. *)
Definition sample_resp (i : nat) (s : string) : response :=
  if String.eqb s "BAC" then note_body else success_body.

Definition empty_db : db := mkdb [] [] 0.

Definition no_failure (k : nat) : bool := false.

(** The records of a batch over [JPM] and [BAC] with [sample_resp]. *)
Definition sample_all_data : list (string * list StockPrice) :=
  match snd (fetch_multiple_symbols 0 sample_resp ["JPM"; "BAC"] 12) with
  | Ok data => data
  | Raise _ => []
  end.

(** A series of two days, the first of which has a JSON [null] open price. *)
Definition null_field_series : json :=
  JObj [("2024-01-02", JObj [("1. open", JNull); ("2. high", JStr "154.00");
                             ("3. low", JStr "150.10"); ("4. close", JStr "153.00");
                             ("5. volume", JStr "1200")]);
        ("2024-01-01", day_entry "149.00" "151.00" "148.50" "150.00" "1000")].

(** A provider whose every response carries [null_field_series]. *)
Definition null_field_resp (i : nat) (s : string) : response :=
  Body (JObj [("Time Series (Daily)", null_field_series)]).

(** [BAC] is rate-limited, [JPM]'s series has a JSON [null] open price,
    every other symbol gets [success_body]. *)
Definition mixed_resp (i : nat) (s : string) : response :=
  if String.eqb s "BAC" then note_body
  else if String.eqb s "JPM" then Body (JObj [("Time Series (Daily)", null_field_series)])
  else success_body.

(** The same series with a non-numeric string open price instead. *)
Definition bad_string_series : json :=
  JObj [("2024-01-02", day_entry "n/a" "154.00" "150.10" "153.00" "1200");
        ("2024-01-01", day_entry "149.00" "151.00" "148.50" "150.00" "1000")].

(** Two persisted [JPM] points, stored oldest first. *)
Definition jpm_day1 : StockPrice :=
  mkStockPrice "JPM" (mkdatetime 2024 1 1) 149.00 151.00 148.50 150.00 1000 0.
Definition jpm_day2 : StockPrice :=
  mkStockPrice "JPM" (mkdatetime 2024 1 2) 150.50 154.00 150.125 153.00 1200 0.
Definition two_day_table : list StockPrice := [jpm_day1; jpm_day2].

(** ** Generic facts *)

(** Case analysis on every [match] of a hypothesis. *)
Ltac split_matches H :=
  repeat match type of H with
         | context [match ?x with _ => _ end] => destruct x
         end.

(** Case analysis on the tests of a hypothesis. *)
Ltac destruct_ifs :=
  repeat match goal with
         | H : context [if ?b then _ else _] |- _ => destruct b
         | H : context [match ?m with Some _ => _ | None => _ end] |- _ => destruct m
         end.


Lemma rbind_Ok {A B} (m : result A) (k : A -> result B) (b : B) :
  rbind m k = Ok b -> exists a, m = Ok a /\ k a = Ok b.
Proof. destruct m; simpl; [eauto | discriminate]. Qed.

Lemma date_eqb_sym (a b : datetime) : date_eqb a b = date_eqb b a.
Proof. unfold date_eqb; now rewrite (Z.eqb_sym (dt_year a)), (Z.eqb_sym (dt_month a)), (Z.eqb_sym (dt_day a)). Qed.

Lemma same_key_sym (x y : StockPrice) :
  same_key (symbol x) (date x) y = same_key (symbol y) (date y) x.
Proof. unfold same_key; now rewrite String.eqb_sym, date_eqb_sym. Qed.

Lemma keys_unique_app_single (l : list StockPrice) (r : StockPrice) :
  keys_unique l = true -> existsb (same_key (symbol r) (date r)) l = false ->
  keys_unique (l ++ [r]) = true.
Proof.
  induction l as [|x l IH]; simpl; intros Hu Hn; [reflexivity|].
  apply andb_true_iff in Hu as [Hx Hu]. apply orb_false_iff in Hn as [Hrx Hn].
  rewrite IH by assumption. rewrite existsb_app; simpl.
  rewrite same_key_sym, Hrx. rewrite orb_false_r. now rewrite Hx.
Qed.

Lemma keys_unique_app_l (l m : list StockPrice) :
  keys_unique (l ++ m) = true -> keys_unique l = true.
Proof.
  induction l as [|x l IH]; simpl; [reflexivity|].
  intros H; apply andb_true_iff in H as [Hx Hu].
  rewrite existsb_app, negb_orb in Hx. apply andb_true_iff in Hx as [Hx _].
  now rewrite Hx, IH.
Qed.

Lemma existsb_find {A} (f : A -> bool) (l : list A) :
  existsb f l = match find f l with Some _ => true | None => false end.
Proof. induction l as [|x l IH]; simpl; [reflexivity|]. now destruct (f x). Qed.

Lemma py_dict_get_set {V} (d : list (string * V)) (k k' : string) (v : V) :
  py_dict_get (py_dict_set d k v) k' = if String.eqb k' k then Some v else py_dict_get d k'.
Proof.
  induction d as [|[k0 v0] d IH]; simpl.
  - reflexivity.
  - destruct (String.eqb k k0) eqn:E; simpl.
    + apply String.eqb_eq in E; subst k0. destruct (String.eqb k' k); reflexivity.
    + destruct (String.eqb k' k0) eqn:E'; [|apply IH].
      apply String.eqb_eq in E'; subst k0.
      destruct (String.eqb k' k) eqn:E''; [|reflexivity].
      apply String.eqb_eq in E''; subst k'. now rewrite String.eqb_refl in E.
Qed.

Lemma same_key_refl (r : StockPrice) : same_key (symbol r) (date r) r = true.
Proof.
  unfold same_key, date_eqb. now rewrite String.eqb_refl, !Z.eqb_refl.
Qed.

Lemma existsb_app_l {A} (f : A -> bool) (l m : list A) :
  existsb f l = true -> existsb f (l ++ m) = true.
Proof. intros H; rewrite existsb_app, H; reflexivity. Qed.

(** ** Facts about the upsert loop *)

Section StoreFacts.
Variable dbfail : nat -> bool.

(** The inner loop leaves the committed rows alone, only appends to the
    pending ones, and keeps the keys of both together unique. *)
Lemma store_records_shape records st st' r :
  store_records dbfail records st = (st', r) ->
  committed (sdb st') = committed (sdb st) /\
  (exists new, pending (sdb st') = pending (sdb st) ++ new) /\
  (keys_unique (committed (sdb st) ++ pending (sdb st)) = true ->
   keys_unique (committed (sdb st') ++ pending (sdb st')) = true).
Proof.
  revert st. induction records as [|record rest IH]; intros st H; simpl in H.
  - inversion H; subst. split; [reflexivity|split; [|auto]].
    exists []; now rewrite app_nil_r.
  - unfold query_first in H. destruct (dbfail (ops (sdb st))).
    + inversion H; subst; simpl. split; [reflexivity|split; [|auto]].
      exists []; now rewrite app_nil_r.
    + destruct (find (same_key (symbol record) (date record))
                  (committed (sdb st) ++ pending (sdb st))) eqn:F.
      * apply IH in H; simpl in H. exact H.
      * apply IH in H; simpl in H. destruct H as (Hc & [new Hp] & Hk).
        split; [exact Hc|]. split.
        -- exists (record :: new). rewrite Hp, <- app_assoc. reflexivity.
        -- intros Hu. apply Hk. rewrite app_assoc.
           apply keys_unique_app_single; [exact Hu|]. now rewrite existsb_find, F.
Qed.

(** When the inner loop completes, every record's key is present, and each
    record was counted once, as stored or as skipped. *)
Lemma store_records_ok records st st' u :
  store_records dbfail records st = (st', Ok u) ->
  (forall x, In x records ->
     existsb (same_key (symbol x) (date x)) (committed (sdb st') ++ pending (sdb st')) = true) /\
  total_stored st' + total_skipped st' = total_stored st + total_skipped st + List.length records.
Proof.
  revert st. induction records as [|record rest IH]; intros st H; simpl in H.
  - inversion H; subst. split; [intros x []|]. simpl; lia.
  - unfold query_first in H. destruct (dbfail (ops (sdb st))); [discriminate|].
    destruct (find (same_key (symbol record) (date record))
                (committed (sdb st) ++ pending (sdb st))) eqn:F.
    + pose proof (store_records_shape _ _ _ _ H) as (Hc & [new Hp] & _).
      apply IH in H as [Hin Hcnt]. simpl in *. split; [|lia].
      intros x [<-|Hx]; [|now apply Hin].
      rewrite Hc, Hp, app_assoc. apply existsb_app_l. now rewrite existsb_find, F.
    + pose proof (store_records_shape _ _ _ _ H) as (Hc & [new Hp] & _).
      apply IH in H as [Hin Hcnt]. simpl in *. split; [|lia].
      intros x [<-|Hx]; [|now apply Hin].
      rewrite Hc, Hp, !app_assoc. apply existsb_app_l.
      rewrite existsb_app. simpl. now rewrite same_key_refl, !orb_true_r.
Qed.

(** A replay over records whose keys are all committed inserts nothing. *)
Lemma store_records_all_present records st st' r :
  (forall x, In x records -> existsb (same_key (symbol x) (date x)) (committed (sdb st)) = true) ->
  pending (sdb st) = [] ->
  store_records dbfail records st = (st', r) ->
  committed (sdb st') = committed (sdb st) /\ pending (sdb st') = [] /\
  total_stored st' = total_stored st /\
  (r = Ok tt -> total_skipped st' = total_skipped st + List.length records).
Proof.
  revert st. induction records as [|record rest IH]; intros st Hall Hp H; simpl in H.
  - inversion H; subst. split; [reflexivity|split; [exact Hp|split; [reflexivity|]]].
    intros _; simpl; lia.
  - unfold query_first in H. destruct (dbfail (ops (sdb st))).
    + inversion H; subst; simpl. split; [reflexivity|split; [exact Hp|split; [reflexivity|]]].
      discriminate.
    + rewrite Hp, app_nil_r in H.
      assert (Hf : existsb (same_key (symbol record) (date record)) (committed (sdb st)) = true)
        by (apply Hall; left; reflexivity).
      rewrite existsb_find in Hf.
      destruct (find (same_key (symbol record) (date record)) (committed (sdb st))); [|discriminate].
      apply IH in H as (Hc & Hp' & Hs & Hk); simpl in *; auto.
      repeat split; auto. intros Hr; rewrite Hk by exact Hr; lia.
Qed.
End StoreFacts.

Section CommitFacts.
Variable dbfail : nat -> bool.

(** The per-symbol loop only appends to the committed rows and keeps the
    keys of the committed and pending rows unique. *)
Lemma store_symbols_shape data st st' r :
  store_symbols dbfail data st = (st', r) ->
  (exists new, committed (sdb st') = committed (sdb st) ++ new) /\
  (keys_unique (committed (sdb st) ++ pending (sdb st)) = true ->
   keys_unique (committed (sdb st') ++ pending (sdb st')) = true).
Proof.
  revert st. induction data as [|[sym records] rest IH]; intros st H; simpl in H.
  - inversion H; subst. split; [exists []; now rewrite app_nil_r | auto].
  - destruct (store_records dbfail records st) as [st1 r1] eqn:E1.
    pose proof (store_records_shape _ _ _ _ _ E1) as (Hc1 & [new1 Hp1] & Hk1).
    destruct r1 as [u1|e1].
    + unfold commit in H. destruct (dbfail (ops (sdb st1))); simpl in H.
      * inversion H; subst; simpl. split; [exists []; now rewrite Hc1, app_nil_r | exact Hk1].
      * apply IH in H as ([new Hc] & Hk); simpl in *.
        split.
        -- exists (pending (sdb st1) ++ new). rewrite Hc, Hc1, app_assoc. reflexivity.
        -- intros Hu. apply Hk. rewrite app_nil_r. now apply Hk1.
    + inversion H; subst. split; [exists []; now rewrite Hc1, app_nil_r | exact Hk1].
Qed.

(** When the per-symbol loop completes, every record's key is committed,
    and every record was counted once, as stored or as skipped. *)
Lemma store_symbols_ok data st st' u :
  store_symbols dbfail data st = (st', Ok u) ->
  (forall sym records x, In (sym, records) data -> In x records ->
     existsb (same_key (symbol x) (date x)) (committed (sdb st')) = true) /\
  total_stored st' + total_skipped st' = total_stored st + total_skipped st + total_records data.
Proof.
  unfold total_records.
  revert st. induction data as [|[sym records] rest IH]; intros st H; simpl in H.
  - inversion H; subst. split; [intros ? ? ? []|]. simpl; lia.
  - destruct (store_records dbfail records st) as [st1 r1] eqn:E1.
    destruct r1 as [u1|e1]; [|discriminate].
    pose proof (store_records_ok _ _ _ _ _ E1) as [Hin1 Hcnt1].
    unfold commit in H. destruct (dbfail (ops (sdb st1))); simpl in H; [discriminate|].
    pose proof (store_symbols_shape _ _ _ _ H) as ([new Hc] & _).
    apply IH in H as [Hin Hcnt]; simpl in *.
    split; [|lia].
    intros sym' records' x [Heq|Hx] Hxr.
    + inversion Heq; subst. rewrite Hc. apply existsb_app_l. now apply Hin1.
    + eapply Hin; eauto.
Qed.

(** A replay over records whose keys are all committed stores nothing. *)
Lemma store_symbols_all_present data st st' r :
  (forall sym records x, In (sym, records) data -> In x records ->
     existsb (same_key (symbol x) (date x)) (committed (sdb st)) = true) ->
  pending (sdb st) = [] ->
  store_symbols dbfail data st = (st', r) ->
  committed (sdb st') = committed (sdb st) /\ pending (sdb st') = [] /\
  total_stored st' = total_stored st /\
  (r = Ok tt -> total_skipped st' = total_skipped st + total_records data).
Proof.
  unfold total_records.
  revert st. induction data as [|[sym records] rest IH]; intros st Hall Hp H; simpl in H.
  - inversion H; subst. split; [reflexivity|split; [exact Hp|split; [reflexivity|]]].
    intros _; simpl; lia.
  - destruct (store_records dbfail records st) as [st1 r1] eqn:E1.
    apply store_records_all_present in E1 as (Hc1 & Hp1 & Hs1 & Hk1);
      [|intros x Hx; eapply Hall; [left; reflexivity|exact Hx] | exact Hp].
    destruct r1 as [u1|e1].
    + unfold commit in H. destruct (dbfail (ops (sdb st1))); simpl in H.
      * inversion H; subst; simpl. split; [exact Hc1|split; [exact Hp1|split; [exact Hs1|]]].
        discriminate.
      * rewrite Hp1, app_nil_r in H.
        apply IH in H as (Hc & Hp' & Hs & Hk); simpl in *.
        -- split; [congruence|split; [exact Hp'|split; [congruence|]]].
           intros Hr. rewrite (Hk Hr). destruct u1. rewrite (Hk1 eq_refl). simpl; lia.
        -- intros sym' records' x Hin Hx. rewrite Hc1.
           eapply Hall; [right; exact Hin|exact Hx].
        -- reflexivity.
    + inversion H; subst. split; [exact Hc1|split; [exact Hp1|split; [exact Hs1|]]].
      discriminate.
Qed.

(** A failing per-symbol loop fails at some symbol [k]: the symbols before
    it complete, and the store of symbol [k] from there raises, leaving the
    rows committed by the first [k] symbols. *)
Lemma store_symbols_raise_at data st st' e :
  store_symbols dbfail data st = (st', Raise e) ->
  exists k p st_k, nth_error data k = Some p /\
    store_symbols dbfail (firstn k data) st = (st_k, Ok tt) /\
    store_symbols dbfail [p] st_k = (st', Raise e) /\
    committed (sdb st') = committed (sdb st_k).
Proof.
  revert st. induction data as [|[sym records] rest IH]; intros st H; simpl in H.
  - discriminate.
  - destruct (store_records dbfail records st) as [st1 r1] eqn:E1.
    pose proof (store_records_shape _ _ _ _ _ E1) as (Hc1 & _ & _).
    destruct r1 as [u1|e1].
    + unfold commit in H. destruct (dbfail (ops (sdb st1))) eqn:Hf; simpl in H.
      * inversion H; subst. exists 0, (sym, records), st. simpl.
        rewrite E1. unfold commit. rewrite Hf. simpl.
        split; [reflexivity|split; [reflexivity|split; [reflexivity|exact Hc1]]].
      * apply IH in H as (k & p & st_k & Hn & Hrun & Hfail & Hc).
        exists (S k), p, st_k. simpl. split; [exact Hn|].
        rewrite E1. unfold commit. rewrite Hf. simpl.
        split; [exact Hrun|split; [exact Hfail|exact Hc]].
    + inversion H; subst. exists 0, (sym, records), st. simpl. rewrite E1.
      split; [reflexivity|split; [reflexivity|split; [reflexivity|exact Hc1]]].
Qed.

End CommitFacts.

(** A store phase never removes or changes a committed row and keeps the
    committed keys unique. *)
Lemma store_all_data_shape dbfail data d :
  (exists new, committed (fst (store_all_data dbfail data d)) = committed d ++ new) /\
  (keys_unique (committed d) = true ->
   keys_unique (committed (fst (store_all_data dbfail data d))) = true).
Proof.
  unfold store_all_data.
  destruct (store_symbols dbfail data (mkstore_state (mkdb (committed d) [] (ops d)) 0 0))
    as [st r] eqn:E.
  apply store_symbols_shape in E as ([new Hc] & Hk); simpl in *.
  assert (Hfin : committed (fst (match r with
                                 | Ok _ => (close (sdb st), Some (total_stored st, total_skipped st))
                                 | Raise _ => (close (rollback (sdb st)), None)
                                 end)) = committed (sdb st)) by (destruct r; reflexivity).
  rewrite Hfin. split; [exists new; exact Hc|].
  intros Hu. apply keys_unique_app_l with (m := pending (sdb st)). apply Hk.
  now rewrite app_nil_r.
Qed.

(** ** C1: idempotent ingestion *)

(** C1. After a store phase over a batch [data] completes, a second store
    phase over the same batch, from the table the first one left and
    whatever database failures it meets, leaves the committed rows as they
    are, and when it completes it reports 0 stored and all of the batch's
    records as skipped. *)
Theorem ingestion_idempotent (f1 f2 : nat -> bool) data d d1 c1 :
  store_all_data f1 data d = (d1, Some c1) ->
  committed (fst (store_all_data f2 data d1)) = committed d1 /\
  (forall c2, snd (store_all_data f2 data d1) = Some c2 -> c2 = (0, total_records data)).
Proof.
  unfold store_all_data at 1.
  destruct (store_symbols f1 data (mkstore_state (mkdb (committed d) [] (ops d)) 0 0))
    as [st r] eqn:E.
  destruct r as [u|e]; intros H; inversion H; subst; clear H.
  destruct u. apply store_symbols_ok in E as [Hin _].
  unfold store_all_data.
  destruct (store_symbols f2 data (mkstore_state (mkdb (committed (close (sdb st))) [] (ops (close (sdb st)))) 0 0))
    as [st2 r2] eqn:E2.
  apply store_symbols_all_present in E2 as (Hc & Hp & Hs & Hk); simpl in *; auto.
  destruct r2 as [u2|e2]; simpl.
  - split; [exact Hc|]. intros c2 Hc2; inversion Hc2; subst.
    destruct u2. rewrite Hs, (Hk eq_refl). reflexivity.
  - split; [exact Hc|]. discriminate.
Qed.

Lemma ingestion_idempotent_witness :
  store_all_data no_failure sample_all_data empty_db
    = (fst (store_all_data no_failure sample_all_data empty_db), Some (2, 0)) /\
  committed (fst (store_all_data no_failure sample_all_data
                    (fst (store_all_data no_failure sample_all_data empty_db))))
    = committed (fst (store_all_data no_failure sample_all_data empty_db)) /\
  (forall c2, snd (store_all_data no_failure sample_all_data
                     (fst (store_all_data no_failure sample_all_data empty_db))) = Some c2 ->
              c2 = (0, total_records sample_all_data)).
Proof.
  split; [vm_compute; reflexivity|].
  apply (ingestion_idempotent no_failure no_failure sample_all_data empty_db
           (fst (store_all_data no_failure sample_all_data empty_db)) (2, 0)).
  vm_compute; reflexivity.
Defined.

(** ** C2: uniqueness of [(symbol, date)] *)

(** C2. Every table reachable by store phases has unique [(symbol, date)]
    keys, and each store phase keeps them unique and only appends rows: the
    rows already committed stay as they are, in place. *)
Theorem uniqueness_invariant :
  (forall t, reachable t -> keys_unique t = true) /\
  (forall dbfail data d, keys_unique (committed d) = true ->
     keys_unique (committed (fst (store_all_data dbfail data d))) = true /\
     exists new, committed (fst (store_all_data dbfail data d)) = committed d ++ new).
Proof.
  split.
  - intros t Hr. induction Hr as [|dbfail data d _ IH]; [reflexivity|].
    now apply (store_all_data_shape dbfail data d).
  - intros dbfail data d Hu. pose proof (store_all_data_shape dbfail data d) as [Hn Hk].
    split; [now apply Hk | exact Hn].
Qed.

Lemma uniqueness_invariant_witness :
  reachable (committed (fst (store_all_data no_failure sample_all_data empty_db))) /\
  keys_unique (committed (fst (store_all_data no_failure sample_all_data empty_db))) = true.
Proof.
  assert (Hr : reachable (committed (fst (store_all_data no_failure sample_all_data empty_db))))
    by (apply reachable_step; exact reachable_empty).
  split; [exact Hr|].
  apply (proj1 uniqueness_invariant). exact Hr.
Defined.

(** ** C10: every parsed record is stored or skipped *)

(** C10. When [fetch_and_store_data] returns [True], the stored count plus
    the skipped count it logs is the number of records of the mapping the
    batch fetch returned. *)
Theorem store_accounting dbfail now resp symbols d tr d' stored skipped :
  fetch_and_store_data dbfail now resp symbols d = (tr, d', Ok (Some (stored, skipped))) ->
  exists data, fetch_multiple_symbols now resp symbols 12 = (tr, Ok data) /\
               stored + skipped = total_records data.
Proof.
  unfold fetch_and_store_data.
  destruct (fetch_multiple_symbols now resp symbols 12) as [tr0 [data|e]]; intros H;
    [|discriminate].
  unfold store_all_data in H.
  destruct (store_symbols dbfail data (mkstore_state (mkdb (committed d) [] (ops d)) 0 0))
    as [st [u|e]] eqn:E; inversion H; subst.
  exists data. split; [reflexivity|].
  apply store_symbols_ok in E as [_ Hcnt]. simpl in Hcnt. exact Hcnt.
Qed.

Lemma store_accounting_witness :
  fetch_and_store_data no_failure 0 sample_resp ["JPM"; "BAC"] empty_db
    = (fst (fst (fetch_and_store_data no_failure 0 sample_resp ["JPM"; "BAC"] empty_db)),
       snd (fst (fetch_and_store_data no_failure 0 sample_resp ["JPM"; "BAC"] empty_db)),
       Ok (Some (2, 0))) /\
  exists data, fetch_multiple_symbols 0 sample_resp ["JPM"; "BAC"] 12
                 = (fst (fst (fetch_and_store_data no_failure 0 sample_resp ["JPM"; "BAC"] empty_db)), Ok data) /\
               2 + 0 = total_records data.
Proof.
  split; [vm_compute; reflexivity|].
  apply (store_accounting no_failure 0 sample_resp ["JPM"; "BAC"] empty_db _
           (snd (fst (fetch_and_store_data no_failure 0 sample_resp ["JPM"; "BAC"] empty_db)))).
  vm_compute; reflexivity.
Defined.

(** ** C3: a persistence failure during ingestion *)

(** C3 (as amended). When the batch fetch returns and the store phase then
    fails, it fails while storing some symbol [k] of the batch: the first
    [k] symbols were stored and committed, and the store of symbol [k] from
    there raises. Only that symbol's uncommitted inserts are rolled back:
    the table is the one left by the [k] commits, so it keeps every row it
    had before and the key of every record of the first [k] symbols, and
    the later symbols are not attempted. [fetch_and_store_data] then
    returns [False] and [run], after a successful setup, stops with [False]
    before the report: the failure is fatal to the run in the Ingest phase
    too. *)
Theorem persistence_failure_rolls_back_symbol dbfail now resp symbols d tr data d' :
  fetch_multiple_symbols now resp symbols 12 = (tr, Ok data) ->
  store_all_data dbfail data d = (d', None) ->
  (exists k sym records st_k st_f e,
     nth_error data k = Some (sym, records) /\
     store_symbols dbfail (firstn k data) (mkstore_state (mkdb (committed d) [] (ops d)) 0 0)
       = (st_k, Ok tt) /\
     store_symbols dbfail [(sym, records)] st_k = (st_f, Raise e) /\
     committed d' = committed (sdb st_k) /\ pending d' = [] /\
     (exists new, committed d' = committed d ++ new) /\
     (forall s rs x, In (s, rs) (firstn k data) -> In x rs ->
        existsb (same_key (symbol x) (date x)) (committed d') = true)) /\
  run dbfail true true now resp symbols d = (d', Ok false).
Proof.
  intros Hf Hs. split.
  - unfold store_all_data in Hs.
    destruct (store_symbols dbfail data (mkstore_state (mkdb (committed d) [] (ops d)) 0 0))
      as [st [u|e]] eqn:E; inversion Hs; subst; clear Hs.
    apply store_symbols_raise_at in E as (k & [sym records] & st_k & Hn & Hrun & Hfail & Hc).
    pose proof (store_symbols_ok _ _ _ _ _ Hrun) as [Hall _].
    pose proof (store_symbols_shape _ _ _ _ _ Hrun) as ([new Hnew] & _).
    exists k, sym, records, st_k, st, e.
    split; [exact Hn|]. split; [exact Hrun|]. split; [exact Hfail|].
    simpl. split; [exact Hc|]. split; [reflexivity|]. split.
    + exists new. rewrite Hc, Hnew. reflexivity.
    + intros s rs x Hin Hx. rewrite Hc. exact (Hall s rs x Hin Hx).
  - unfold run, fetch_and_store_data. simpl. rewrite Hf, Hs. reflexivity.
Qed.

Lemma persistence_failure_rolls_back_symbol_witness :
  let data := match snd (fetch_multiple_symbols 0 sample_resp ["JPM"; "WFC"] 12) with
              | Ok data => data | Raise _ => [] end in
  let f := fun k => Nat.eqb k 5 in
  let d' := fst (store_all_data f data empty_db) in
  store_all_data f data empty_db = (d', None) /\
  (exists k sym records st_k st_f e,
     nth_error data k = Some (sym, records) /\
     store_symbols f (firstn k data)
       (mkstore_state (mkdb (committed empty_db) [] (ops empty_db)) 0 0) = (st_k, Ok tt) /\
     store_symbols f [(sym, records)] st_k = (st_f, Raise e) /\
     committed d' = committed (sdb st_k) /\ pending d' = [] /\
     (exists new, committed d' = committed empty_db ++ new) /\
     (forall s rs x, In (s, rs) (firstn k data) -> In x rs ->
        existsb (same_key (symbol x) (date x)) (committed d') = true)) /\
  run f true true 0 sample_resp ["JPM"; "WFC"] empty_db = (d', Ok false).
Proof.
  intros data f d'.
  assert (Hs : store_all_data f data empty_db = (d', None)) by (vm_compute; reflexivity).
  split; [exact Hs|].
  apply (persistence_failure_rolls_back_symbol f 0 sample_resp ["JPM"; "WFC"] empty_db
           (fst (fetch_multiple_symbols 0 sample_resp ["JPM"; "WFC"] 12)) data d').
  - vm_compute. reflexivity.
  - exact Hs.
Defined.

(** C3 counterexample: with a successful setup, a commit that fails in the

    Ingest phase (the third database round trip, the commit of [JPM]) makes
    [run] return [False]: the run is aborted. *)
Lemma ingest_failure_aborts_run :
  snd (run (fun k => Nat.eqb k 2) true true 0 sample_resp ["JPM"; "BAC"] empty_db) = Ok false.
Proof. vm_compute. reflexivity. Qed.

(** ** C9: records carry the symbol argument *)

Lemma parse_entry_symbol now s date_str values r :
  parse_entry now s date_str values = Ok r -> symbol r = s.
Proof.
  unfold parse_entry. intros H.
  repeat (apply rbind_Ok in H as [? [_ H]]).
  inversion H. reflexivity.
Qed.

Lemma parse_items_symbol now s items acc l :
  Forall (fun r => symbol r = s) acc ->
  parse_items now s items acc = Ok l -> Forall (fun r => symbol r = s) l.
Proof.
  revert acc. induction items as [|[date_str values] rest IH]; intros acc Hacc H; simpl in H.
  - inversion H; subst. exact Hacc.
  - destruct (parse_entry now s date_str values) as [r|e] eqn:E.
    + apply (IH (acc ++ [r])); [|exact H].
      apply Forall_app; split; [exact Hacc|].
      constructor; [exact (parse_entry_symbol _ _ _ _ _ E)|constructor].
    + destruct e; try discriminate; exact (IH _ Hacc H).
Qed.

(** C9. Every record the parser returns carries the symbol it was called
    with. *)
Theorem parse_symbol_attribution now s time_series_data l :
  parse_stock_data now s time_series_data = Ok l -> Forall (fun r => symbol r = s) l.
Proof.
  unfold parse_stock_data. destruct time_series_data; try discriminate.
  apply parse_items_symbol. constructor.
Qed.

Lemma parse_symbol_attribution_witness :
  parse_stock_data 0 "GS" sample_series
    = Ok (match parse_stock_data 0 "GS" sample_series with Ok l => l | Raise _ => [] end) /\
  Forall (fun r => symbol r = "GS")
    (match parse_stock_data 0 "GS" sample_series with Ok l => l | Raise _ => [] end).
Proof.
  split; [vm_compute; reflexivity|].
  apply (parse_symbol_attribution 0 "GS" sample_series). vm_compute. reflexivity.
Defined.

(** ** C5: classification of fetch failures *)

(** C5 (as amended). [fetch_daily_data] never raises. A transport failure,
    a body with a ["Note"] or an ["Error Message"] key, and an object
    without ["Time Series (Daily)"] all give the same [None]; a series is
    returned only from a JSON object that has the series key and neither
    soft-error key. *)
Theorem fetch_failures_untyped symbol :
  (forall e, fetch_daily_data symbol (Transport e) = None) /\
  (forall kvs,
     py_dict_get (dict_of_members kvs) "Note" <> None \/
     py_dict_get (dict_of_members kvs) "Error Message" <> None \/
     py_dict_get (dict_of_members kvs) "Time Series (Daily)" = None ->
     fetch_daily_data symbol (Body (JObj kvs)) = None) /\
  (forall resp ts, fetch_daily_data symbol resp = Some ts ->
     exists kvs, resp = Body (JObj kvs) /\
       py_dict_get (dict_of_members kvs) "Error Message" = None /\
       py_dict_get (dict_of_members kvs) "Note" = None /\
       py_dict_get (dict_of_members kvs) "Time Series (Daily)" = Some ts).
Proof.
  split; [reflexivity|]. split.
  - intros kvs Hk. unfold fetch_daily_data, fetch_daily_data_try, py_in, py_getitem; simpl.
    destruct (py_dict_get (dict_of_members kvs) "Error Message"); simpl; [reflexivity|].
    destruct (py_dict_get (dict_of_members kvs) "Note"); simpl; [reflexivity|].
    destruct (py_dict_get (dict_of_members kvs) "Time Series (Daily)"); simpl; [|reflexivity].
    destruct Hk as [Hk|[Hk|Hk]]; congruence.
  - intros resp ts H. destruct resp as [e|data]; [cbn in H; discriminate H|].
    unfold fetch_daily_data, fetch_daily_data_try in H.
    destruct data as [| | | | str | xs | kvs];
      [ .. | exists kvs; split; [reflexivity|]];
      [ exfalso; simpl in H; destruct_ifs; simpl in H; discriminate H .. |].
    unfold py_in, py_getitem in H.
    destruct (py_dict_get (dict_of_members kvs) "Error Message") eqn:E1; simpl in H;
      [discriminate|].
    destruct (py_dict_get (dict_of_members kvs) "Note") eqn:E2; simpl in H; [discriminate|].
    destruct (py_dict_get (dict_of_members kvs) "Time Series (Daily)") eqn:E3; simpl in H;
      [|discriminate].
    split; [reflexivity|split; [reflexivity|]].
    destruct (py_len j); simpl in H; [|discriminate]. now inversion H.
Qed.

Lemma fetch_failures_untyped_witness :
  fetch_daily_data "BAC" transport_failure = None /\
  fetch_daily_data "BAC" (Body (JObj [("Note", JStr "Our standard API call frequency is 5 calls per minute.")])) = None /\
  (fetch_daily_data "JPM" success_body = Some sample_series ->
   exists kvs, success_body = Body (JObj kvs) /\
     py_dict_get (dict_of_members kvs) "Error Message" = None /\
     py_dict_get (dict_of_members kvs) "Note" = None /\
     py_dict_get (dict_of_members kvs) "Time Series (Daily)" = Some sample_series).
Proof.
  split; [apply (proj1 (fetch_failures_untyped "BAC"))|]. split.
  - apply (proj1 (proj2 (fetch_failures_untyped "BAC"))). left. vm_compute. discriminate.
  - apply (proj2 (proj2 (fetch_failures_untyped "JPM"))).
Defined.

(** C5 counterexample: a rate-limit note, an error payload, an
    unrecognized shape and a transport error all give the same result. *)
Lemma fetch_failure_kinds_collapse :
  fetch_daily_data "JPM" note_body = None /\
  fetch_daily_data "JPM" error_body = None /\
  fetch_daily_data "JPM" other_body = None /\
  fetch_daily_data "JPM" transport_failure = None.
Proof. vm_compute. repeat split. Qed.

(** ** The batch fetch *)

Lemma requested_app (t1 t2 : list event) :
  requested (t1 ++ t2) = requested t1 ++ requested t2.
Proof. induction t1 as [|[] t1 IH]; simpl; [reflexivity| |]; now rewrite IH. Qed.

Section BatchFacts.
Variable now : Z.
Variable resp : nat -> string -> response.
Variable delay : Z.

(** A loop that returns has emitted exactly the throttled trace. *)
Lemma fetch_loop_trace n i symbols st st' u :
  fetch_loop now resp delay n i symbols st = (st', Ok u) ->
  trace st' = trace st ++ throttled_trace resp delay n i symbols.
Proof.
  revert i st. induction symbols as [|s rest IH]; intros i st H; simpl in H.
  - inversion H; subst. simpl. now rewrite app_nil_r.
  - simpl. unfold fetched_nonempty.
    destruct (fetch_daily_data s (resp i s)) as [ts|] eqn:F.
    + destruct (py_truthy ts) eqn:T.
      * destruct (parse_stock_data now s ts) as [parsed|e]; [|discriminate].
        apply IH in H. rewrite H. rewrite andb_true_r.
        destruct (i <? n - 1); simpl; rewrite <- !app_assoc; reflexivity.
      * apply IH in H. rewrite H. simpl. rewrite andb_false_r, <- app_assoc. reflexivity.
    + apply IH in H. rewrite H. simpl. rewrite andb_false_r, <- app_assoc. reflexivity.
Qed.

(** One step of the loop: the request is recorded and the symbol's entry
    set, to [[]] when its fetch fails, before the rest of the loop runs. *)
Lemma fetch_loop_cons n i s rest st st' r :
  fetch_loop now resp delay n i (s :: rest) st = (st', r) ->
  (exists ts, fetch_daily_data s (resp i s) = Some ts /\
     exists e, parse_stock_data now s ts = Raise e /\ r = Raise e /\
     requested (trace st') = requested (trace st) ++ [s]) \/
  (exists v st2, fetch_loop now resp delay n (S i) rest st2 = (st', r) /\
     requested (trace st2) = requested (trace st) ++ [s] /\
     all_data st2 = py_dict_set (all_data st) s v /\
     (fetch_daily_data s (resp i s) = None -> v = [])).
Proof.
  simpl. intros H.
  destruct (fetch_daily_data s (resp i s)) as [ts|] eqn:F.
  - destruct (py_truthy ts) eqn:T.
    + destruct (parse_stock_data now s ts) as [parsed|e] eqn:P.
      * right. exists parsed.
        destruct (i <? n - 1); eexists; (split; [exact H|]); simpl;
          rewrite ?requested_app; simpl; rewrite ?app_nil_r, ?requested_app; simpl;
          rewrite ?app_nil_r; (split; [reflexivity|split; [reflexivity|]]);
          intros Habs; discriminate Habs.
      * left. exists ts. split; [reflexivity|]. exists e.
        inversion H; subst. split; [exact P|split; [reflexivity|]].
        simpl. now rewrite requested_app.
    + right. exists []. eexists. split; [exact H|]. simpl.
      rewrite requested_app. split; [reflexivity|split; reflexivity].
  - right. exists []. eexists. split; [exact H|]. simpl.
    rewrite requested_app. split; [reflexivity|split; reflexivity].
Qed.

(** A loop that returns requested every symbol, in order. *)
Lemma fetch_loop_requested n i symbols st st' u :
  fetch_loop now resp delay n i symbols st = (st', Ok u) ->
  requested (trace st') = requested (trace st) ++ symbols.
Proof.
  revert i st. induction symbols as [|s rest IH]; intros i st H.
  - simpl in H. inversion H; subst. now rewrite app_nil_r.
  - apply fetch_loop_cons in H as [(ts & _ & e & _ & He & _)|(v & st2 & H & Hr & _ & _)];
      [discriminate|].
    apply IH in H. rewrite H, Hr, <- app_assoc. reflexivity.
Qed.

(** A loop that returns gives every requested symbol an entry. *)
Lemma fetch_loop_entries n i symbols st st' u k :
  fetch_loop now resp delay n i symbols st = (st', Ok u) ->
  In k symbols \/ py_dict_get (all_data st) k <> None ->
  py_dict_get (all_data st') k <> None.
Proof.
  revert i st. induction symbols as [|s rest IH]; intros i st H Hk.
  - simpl in H. inversion H; subst. destruct Hk as [[]|Hk]; exact Hk.
  - apply fetch_loop_cons in H as [(ts & _ & e & _ & He & _)|(v & st2 & H & _ & Hd & _)];
      [discriminate|].
    apply (IH _ _ H).
    destruct Hk as [[Hks|Hk]|Hk].
    + subst k. right. rewrite Hd, py_dict_get_set, String.eqb_refl. discriminate.
    + left. exact Hk.
    + right. rewrite Hd, py_dict_get_set. destruct (String.eqb k s); [discriminate|exact Hk].
Qed.

(** A loop that returns maps a symbol whose every fetch fails to [[]]. *)
Lemma fetch_loop_failed n i symbols st st' u X :
  (forall j, fetch_daily_data X (resp j X) = None) ->
  fetch_loop now resp delay n i symbols st = (st', Ok u) ->
  In X symbols \/ py_dict_get (all_data st) X = Some [] ->
  py_dict_get (all_data st') X = Some [].
Proof.
  intros HX. revert i st. induction symbols as [|s rest IH]; intros i st H Hk.
  - simpl in H. inversion H; subst. destruct Hk as [[]|Hk]; exact Hk.
  - apply fetch_loop_cons in H as [(ts & _ & e & _ & He & _)|(v & st2 & H & _ & Hd & Hv)];
      [discriminate|].
    apply (IH _ _ H).
    destruct (String.eqb X s) eqn:E.
    + apply String.eqb_eq in E; subst s. right.
      rewrite Hd, py_dict_get_set, String.eqb_refl, (Hv (HX i)). reflexivity.
    + destruct Hk as [[Hks|Hk]|Hk].
      * subst s. now rewrite String.eqb_refl in E.
      * left. exact Hk.
      * right. rewrite Hd, py_dict_get_set, E. exact Hk.
Qed.

(** A loop that raises does so while parsing the series of a symbol whose
    fetch succeeded, after requesting the symbols up to that one. *)
Lemma fetch_loop_raise n i symbols st st' e :
  fetch_loop now resp delay n i symbols st = (st', Raise e) ->
  exists j s ts, nth_error symbols j = Some s /\
    fetch_daily_data s (resp (i + j) s) = Some ts /\
    parse_stock_data now s ts = Raise e /\
    requested (trace st') = requested (trace st) ++ firstn (S j) symbols.
Proof.
  revert i st. induction symbols as [|s rest IH]; intros i st H.
  - simpl in H. discriminate.
  - apply fetch_loop_cons in H as [(ts & F & e' & P & He & Hr)|(v & st2 & H & Hr & _ & _)].
    + inversion He; subst e'. exists 0, s, ts. rewrite Nat.add_0_r.
      split; [reflexivity|split; [exact F|split; [exact P|exact Hr]]].
    + apply IH in H as (j & s' & ts & Hn & F & P & Hr').
      exists (S j), s', ts. rewrite <- plus_n_Sm.
      split; [exact Hn|split; [exact F|split; [exact P|]]].
      rewrite Hr', Hr, <- app_assoc. reflexivity.
Qed.
End BatchFacts.

(** ** C4: throttle spacing *)

(** C4 (as amended). When the batch fetch returns, its effects are exactly
    the throttled trace: after the [i]-th request comes one [time.sleep] of
    the configured delay when [i] is not the last index and that fetch gave
    a non-empty series, and no sleep otherwise; in particular none after a
    failed fetch and none after the final symbol. *)
Theorem throttle_after_successful_fetch now resp symbols delay tr data :
  fetch_multiple_symbols now resp symbols delay = (tr, Ok data) ->
  tr = throttled_trace resp delay (List.length symbols) 0 symbols.
Proof.
  unfold fetch_multiple_symbols.
  destruct (fetch_loop now resp delay (List.length symbols) 0 symbols (mkfetch_state [] []))
    as [st r] eqn:E.
  intros H. inversion H; subst. destruct r as [u|e]; [|discriminate].
  apply fetch_loop_trace in E. exact E.
Qed.

Lemma throttle_after_successful_fetch_witness :
  fst (fetch_multiple_symbols 0 sample_resp ["JPM"; "BAC"; "WFC"] 12)
    = throttled_trace sample_resp 12 3 0 ["JPM"; "BAC"; "WFC"].
Proof.
  apply (throttle_after_successful_fetch 0 sample_resp ["JPM"; "BAC"; "WFC"] 12 _
           (match snd (fetch_multiple_symbols 0 sample_resp ["JPM"; "BAC"; "WFC"] 12) with
            | Ok data => data | Raise _ => [] end)).
  vm_compute. reflexivity.
Defined.

(** C4 counterexample: over [JPM; BAC; WFC] with [BAC] rate-limited, the
    batch sleeps once, not [3 - 1 = 2] times: no delay follows the failed
    request for [BAC]. *)
Lemma throttle_spacing_counterexample :
  count_sleeps (fst (fetch_multiple_symbols 0 sample_resp ["JPM"; "BAC"; "WFC"] 12))
    <> List.length ["JPM"; "BAC"; "WFC"] - 1.
Proof. vm_compute. discriminate. Qed.

(** ** The batch fetch when one symbol fails *)

(** X13. If every fetch of [X] fails, the batch is not stopped by it: when
    the batch returns, it requested every symbol in order, mapped [X] to
    the empty list and gave every requested symbol an entry; when it
    raises, the exception comes from parsing the series of another symbol,
    whose fetch succeeded, and the symbols up to that one were requested. *)
Theorem fetch_isolation now resp symbols delay X :
  (forall j, fetch_daily_data X (resp j X) = None) ->
  match fetch_multiple_symbols now resp symbols delay with
  | (tr, Ok data) =>
      requested tr = symbols /\
      (In X symbols -> py_dict_get data X = Some []) /\
      (forall s, In s symbols -> py_dict_get data s <> None)
  | (tr, Raise e) =>
      exists j s ts, nth_error symbols j = Some s /\ s <> X /\
        fetch_daily_data s (resp j s) = Some ts /\
        parse_stock_data now s ts = Raise e /\
        requested tr = firstn (S j) symbols
  end.
Proof.
  intros HX. unfold fetch_multiple_symbols.
  destruct (fetch_loop now resp delay (List.length symbols) 0 symbols (mkfetch_state [] []))
    as [st [u|e]] eqn:E; simpl.
  - split; [exact (fetch_loop_requested _ _ _ _ _ _ _ _ _ E)|split].
    + intros Hin. apply (fetch_loop_failed _ _ _ _ _ _ _ _ _ X HX E). left; exact Hin.
    + intros s Hs. apply (fetch_loop_entries _ _ _ _ _ _ _ _ _ s E). left; exact Hs.
  - apply fetch_loop_raise in E as (j & s & ts & Hn & F & P & Hr).
    exists j, s, ts. split; [exact Hn|]. split.
    + intros ->. rewrite HX in F. discriminate.
    + split; [exact F|split; [exact P|exact Hr]].
Qed.

Lemma fetch_isolation_witness :
  (forall j, fetch_daily_data "BAC" (sample_resp j "BAC") = None) /\
  match fetch_multiple_symbols 0 sample_resp ["JPM"; "BAC"; "WFC"] 12 with
  | (tr, Ok data) =>
      requested tr = ["JPM"; "BAC"; "WFC"] /\
      (In "BAC" ["JPM"; "BAC"; "WFC"] -> py_dict_get data "BAC" = Some []) /\
      (forall s, In s ["JPM"; "BAC"; "WFC"] -> py_dict_get data s <> None)
  | (tr, Raise e) =>
      exists j s ts, nth_error ["JPM"; "BAC"; "WFC"] j = Some s /\ s <> "BAC" /\
        fetch_daily_data s (sample_resp j s) = Some ts /\
        parse_stock_data 0 s ts = Raise e /\
        requested tr = firstn (S j) ["JPM"; "BAC"; "WFC"]
  end.
Proof.
  assert (HX : forall j, fetch_daily_data "BAC" (sample_resp j "BAC") = None)
    by (intros j; vm_compute; reflexivity).
  split; [exact HX|].
  exact (fetch_isolation 0 sample_resp ["JPM"; "BAC"; "WFC"] 12 "BAC" HX).
Defined.

(** C7, evaluated. [BAC] is rate-limited, so its failure is isolated, but
    the next symbol's series has a JSON [null] field: the [TypeError] of its
    parser ends the batch after the second request. [WFC] is never
    requested, and no mapping is returned, not even [BAC]'s empty list. *)
Theorem isolation_broken_by_null_field :
  fetch_daily_data "BAC" (mixed_resp 0 "BAC") = None /\
  fetch_multiple_symbols 0 mixed_resp ["BAC"; "JPM"; "WFC"] 12
    = ([Request 0 "BAC"; Request 1 "JPM"], Raise TypeError).
Proof. vm_compute. split; reflexivity. Qed.

(** ** C6: parser isolation *)

(** C6, evaluated. A non-numeric string field is a [ValueError], caught:
    the other day is returned. A JSON [null] field makes [float(None)]
    raise [TypeError], which [except (KeyError, ValueError)] does not catch:
    the parser raises instead of returning the other day, and the exception
    escapes the batch fetch and [run]. *)
Theorem parse_null_field_propagates :
  match parse_stock_data 0 "JPM" bad_string_series with
  | Ok l => List.length l = 1
  | Raise _ => False
  end /\
  parse_stock_data 0 "JPM" null_field_series = Raise TypeError /\
  snd (fetch_multiple_symbols 0 null_field_resp ["JPM"; "BAC"] 12) = Raise TypeError /\
  snd (run no_failure true true 0 null_field_resp pipeline_symbols empty_db) = Raise TypeError.
Proof. vm_compute. repeat split. Qed.

(** ** C8: day-over-day change in the report *)

(** C8, evaluated. For [JPM] closing at 150.00 on 2024-01-01 and 153.00 on
    2024-01-02, the query picks the two points newest first and lines
    129-130 compute [change = 3.0] and [pct_change = 2.0]; the f-string of
    line 132 then raises [ValueError] on the format spec [+.2f:<13], so the
    report prints no metrics line at all. *)
Theorem report_change_line_raises :
  last_two two_day_table "JPM" = [jpm_day2; jpm_day1] /\
  day_change jpm_day2 jpm_day1 = (3%float, 2%float) /\
  metrics_loop two_day_table pipeline_symbols = ([], Raise ValueError) /\
  performance_metrics two_day_table = [].
Proof. vm_compute. repeat split. Qed.

(** * Further properties of the code *)

(** ** Python dicts built from JSON members *)

Lemma in_py_dict_set {V} (d : list (string * V)) k v p :
  In p (py_dict_set d k v) -> In p d \/ p = (k, v).
Proof.
  induction d as [|[k0 v0] d IH]; simpl; [intros [<-|[]]; now right|].
  destruct (String.eqb k k0).
  - intros [<-|H]; [now right|left; now right].
  - intros [<-|H]; [left; now left|]. destruct (IH H); [left; now right|now right].
Qed.

Lemma in_dict_of_members_aux (kvs d : list (string * json)) p :
  In p (fold_left (fun d kv => py_dict_set d (fst kv) (snd kv)) kvs d) -> In p d \/ In p kvs.
Proof.
  revert d. induction kvs as [|[k v] kvs IH]; simpl; intros d H; [now left|].
  apply IH in H as [H|H]; [|right; now right].
  apply in_py_dict_set in H as [H|H]; [now left|right; now left].
Qed.

Lemma in_dict_of_members kvs p : In p (dict_of_members kvs) -> In p kvs.
Proof. intros H. apply in_dict_of_members_aux in H as [[]|H]. exact H. Qed.

Lemma py_dict_get_in {V} (d : list (string * V)) k v : py_dict_get d k = Some v -> In (k, v) d.
Proof.
  induction d as [|[k0 v0] d IH]; simpl; [discriminate|].
  destruct (String.eqb k k0) eqn:E; intros H; [|right; now apply IH].
  apply String.eqb_eq in E; subst. inversion H; subst. now left.
Qed.


(** ** The conversions raise nothing but [ValueError] on a string *)

Lemma py_int_of_string_raise s e : py_int_of_string s = Raise e -> e = ValueError.
Proof.
  unfold py_int_of_string. destruct (read_sign _) as [neg body].
  intros H. split_matches H; congruence.
Qed.

Lemma py_float_of_string_raise s e : py_float_of_string s = Raise e -> e = ValueError.
Proof.
  unfold py_float_of_string. destruct (read_sign _) as [neg body].
  intros H. split_matches H; congruence.
Qed.

Lemma strptime_ymd_raise s e : strptime_ymd s = Raise e -> e = ValueError.
Proof.
  unfold strptime_ymd. intros H.
  destruct (match_ymd _) as [[[[yt mt] dt] rest]|]; [|congruence].
  destruct rest; [|congruence].
  destruct (py_int_of_string (string_of_list_ascii yt)) as [y|e1] eqn:Ey; simpl in H;
    [|inversion H; subst; eapply py_int_of_string_raise; eauto].
  destruct (py_int_of_string (string_of_list_ascii mt)) as [m|e2] eqn:Em; simpl in H;
    [|inversion H; subst; eapply py_int_of_string_raise; eauto].
  destruct (py_int_of_string (string_of_list_ascii dt)) as [d|e3] eqn:Ed; simpl in H;
    [|inversion H; subst; eapply py_int_of_string_raise; eauto].
  destruct (_ && _)%bool; congruence.
Qed.


(** ** The parser *)

Lemma float_field_strings fields k :
  forallb (fun f => match snd f with JStr _ => true | _ => false end) fields = true ->
  match float_field (JObj fields) k with Ok _ => True | Raise e => caught e end.
Proof.
  intros Hf. unfold float_field, py_getitem.
  destruct (py_dict_get (dict_of_members fields) k) as [v|] eqn:G; simpl; [|now left].
  apply py_dict_get_in, in_dict_of_members in G.
  rewrite forallb_forall in Hf. specialize (Hf _ G). simpl in Hf.
  destruct v; try discriminate. simpl.
  destruct (py_float_of_string s) as [f|e] eqn:E; [exact I|].
  right. now apply py_float_of_string_raise in E.
Qed.

Lemma parse_entry_strings now s date_str fields :
  forallb (fun f => match snd f with JStr _ => true | _ => false end) fields = true ->
  match parse_entry now s date_str (JObj fields) with Ok _ => True | Raise e => caught e end.
Proof.
  intros Hf. unfold parse_entry.
  destruct (strptime_ymd date_str) as [d|e] eqn:E; simpl;
    [|right; now apply strptime_ymd_raise in E].
  pose proof (float_field_strings fields "1. open" Hf) as H1.
  destruct (float_field (JObj fields) "1. open"); simpl; [|exact H1].
  pose proof (float_field_strings fields "2. high" Hf) as H2.
  destruct (float_field (JObj fields) "2. high"); simpl; [|exact H2].
  pose proof (float_field_strings fields "3. low" Hf) as H3.
  destruct (float_field (JObj fields) "3. low"); simpl; [|exact H3].
  pose proof (float_field_strings fields "4. close" Hf) as H4.
  destruct (float_field (JObj fields) "4. close"); simpl; [|exact H4].
  unfold py_getitem.
  destruct (py_dict_get (dict_of_members fields) "5. volume") as [v|] eqn:G; simpl; [|now left].
  apply py_dict_get_in, in_dict_of_members in G.
  rewrite forallb_forall in Hf. specialize (Hf _ G). simpl in Hf.
  destruct v; try discriminate. simpl.
  destruct (py_int_of_string s0) as [z|e] eqn:E'; [exact I|].
  right. now apply py_int_of_string_raise in E'.
Qed.

Lemma parse_items_total now s items acc :
  (forall d v, In (d, v) items ->
     match parse_entry now s d v with Ok _ => True | Raise e => caught e end) ->
  exists l, parse_items now s items acc = Ok l /\
            List.length l <= List.length acc + List.length items.
Proof.
  revert acc. induction items as [|[d v] rest IH]; intros acc H; simpl.
  - exists acc. split; [reflexivity|lia].
  - pose proof (H d v (or_introl eq_refl)) as Hdv.
    assert (Hr : forall d' v', In (d', v') rest ->
               match parse_entry now s d' v' with Ok _ => True | Raise e => caught e end)
      by (intros; apply H; now right).
    destruct (parse_entry now s d v) as [r|e].
    + destruct (IH (acc ++ [r]) Hr) as [l [Hl Hlen]]. exists l. split; [exact Hl|].
      rewrite length_app in Hlen. simpl in Hlen. lia.
    + destruct Hdv as [->| ->];
        destruct (IH acc Hr) as [l [Hl Hlen]]; exists l; split; auto; lia.
Qed.



Lemma parse_items_raise now s items acc e :
  parse_items now s items acc = Raise e -> e <> KeyError /\ e <> ValueError.
Proof.
  revert acc. induction items as [|[date_str values] rest IH]; intros acc H; simpl in H;
    [discriminate|].
  destruct (parse_entry now s date_str values) as [r|e'] eqn:E; [exact (IH _ H)|].
  destruct e'; try (exact (IH _ H)); inversion H; subst; split; discriminate.
Qed.



(** X2. The parser never raises [KeyError] or [ValueError]: these are
    caught per day. An exception that leaves it is of another kind, such as
    the [TypeError] of [float(None)] or the [AttributeError] of a series
    that is not a JSON object. *)
Theorem parse_raises_uncaught_only now s time_series_data e :
  parse_stock_data now s time_series_data = Raise e -> e <> KeyError /\ e <> ValueError.
Proof.
  unfold parse_stock_data. destruct time_series_data;
    try (intros H; inversion H; subst; split; discriminate).
  apply parse_items_raise.
Qed.

Lemma parse_raises_uncaught_only_witness :
  parse_stock_data 0 "JPM" null_field_series = Raise TypeError /\
  TypeError <> KeyError /\ TypeError <> ValueError.
Proof.
  split; [vm_compute; reflexivity|].
  apply (parse_raises_uncaught_only 0 "JPM" null_field_series). vm_compute. reflexivity.
Defined.

(** X3. On a series whose every day is a JSON object with only string
    fields, the shape the provider sends, the parser never raises, whatever
    the strings hold, and returns at most one record per distinct date
    key. *)
Theorem parse_string_entries_total now s kvs :
  all_string_fields kvs = true ->
  exists l, parse_stock_data now s (JObj kvs) = Ok l /\
            List.length l <= List.length (dict_of_members kvs).
Proof.
  intros H. unfold parse_stock_data.
  destruct (parse_items_total now s (dict_of_members kvs) []) as [l [Hl Hlen]].
  - intros d v Hin. apply in_dict_of_members in Hin.
    unfold all_string_fields in H. rewrite forallb_forall in H.
    specialize (H _ Hin). simpl in H. destruct v; try discriminate.
    now apply parse_entry_strings.
  - exists l. split; [exact Hl|]. simpl in Hlen. exact Hlen.
Qed.

Lemma parse_string_entries_total_witness :
  let kvs := match bad_string_series with JObj kvs => kvs | _ => [] end in
  all_string_fields kvs = true /\
  exists l, parse_stock_data 0 "JPM" (JObj kvs) = Ok l /\
            List.length l <= List.length (dict_of_members kvs).
Proof.
  intros kvs. split; [vm_compute; reflexivity|].
  apply (parse_string_entries_total 0 "JPM" kvs). vm_compute. reflexivity.
Defined.

(** ** The fetch of one symbol *)

(** X4. For a JSON object body with neither soft-error key, the fetch
    returns the value of ["Time Series (Daily)"] when it is a dict, a list
    or a string, and [None] when it is [null], a number or a boolean, whose
    [len()] in the log line raises. *)
Theorem fetch_returns_series symbol kvs v :
  py_dict_get (dict_of_members kvs) "Error Message" = None ->
  py_dict_get (dict_of_members kvs) "Note" = None ->
  py_dict_get (dict_of_members kvs) "Time Series (Daily)" = Some v ->
  fetch_daily_data symbol (Body (JObj kvs))
    = match v with JObj _ | JArr _ | JStr _ => Some v | _ => None end.
Proof.
  intros He Hn Hs. unfold fetch_daily_data, fetch_daily_data_try, py_in, py_getitem.
  rewrite He, Hn, Hs. simpl. destruct v; reflexivity.
Qed.

Lemma fetch_returns_series_witness :
  fetch_daily_data "JPM" (Body (JObj [("Time Series (Daily)", JNull)])) = None.
Proof.
  apply (fetch_returns_series "JPM" [("Time Series (Daily)", JNull)] JNull);
    vm_compute; reflexivity.
Defined.

(** ** The batch fetch *)

Lemma count_sleeps_app (t1 t2 : list event) :
  count_sleeps (t1 ++ t2) = count_sleeps t1 + count_sleeps t2.
Proof. induction t1 as [|[] t1 IH]; simpl; [reflexivity| |]; now rewrite IH. Qed.

Section BatchFacts2.
Variable now : Z.
Variable resp : nat -> string -> response.
Variable delay : Z.


(** The loop from index [i] sleeps at most [n - 1 - i] times. *)
Lemma fetch_loop_sleeps n i symbols st st' r :
  fetch_loop now resp delay n i symbols st = (st', r) ->
  count_sleeps (trace st') <= count_sleeps (trace st) + (n - 1 - i).
Proof.
  revert i st. induction symbols as [|s rest IH]; intros i st H; simpl in H.
  - inversion H; subst. lia.
  - destruct (fetch_daily_data s (resp i s)) as [ts|].
    + destruct (py_truthy ts).
      * destruct (parse_stock_data now s ts) as [pd|e].
        -- destruct (i <? n - 1) eqn:Hi; apply IH in H; simpl in H;
             rewrite !count_sleeps_app in H; simpl in H.
           ++ apply Nat.ltb_lt in Hi. lia.
           ++ apply Nat.ltb_ge in Hi. lia.
        -- inversion H; subst. simpl. rewrite count_sleeps_app. simpl. lia.
      * apply IH in H. simpl in H. rewrite count_sleeps_app in H. simpl in H. lia.
    + apply IH in H. simpl in H. rewrite count_sleeps_app in H. simpl in H. lia.
Qed.

(** When no fetch gives a non-empty series, the loop returns and maps
    every symbol to the empty list. *)
Lemma fetch_loop_all_failed n i symbols st :
  (forall j s, fetched_nonempty resp j s = false) ->
  (forall k v, In (k, v) (all_data st) -> v = []) ->
  snd (fetch_loop now resp delay n i symbols st) = Ok tt /\
  (forall k v, In (k, v) (all_data (fst (fetch_loop now resp delay n i symbols st))) -> v = []).
Proof.
  intros Hf. revert i st. induction symbols as [|s rest IH]; intros i st Hst; simpl.
  - split; [reflexivity|exact Hst].
  - pose proof (Hf i s) as Hi. unfold fetched_nonempty in Hi.
    assert (Hst' : forall k v, In (k, v) (py_dict_set (all_data st) s []) -> v = []).
    { intros k v Hin. apply in_py_dict_set in Hin as [Hin|Hin]; [exact (Hst _ _ Hin)|].
      now inversion Hin. }
    destruct (fetch_daily_data s (resp i s)) as [ts|].
    + rewrite Hi. apply IH. exact Hst'.
    + apply IH. exact Hst'.
Qed.
End BatchFacts2.



(** X6. A batch over [N] symbols sleeps at most [N - 1] times, whether it
    returns or a parser exception ends it: the total wait is at most
    [(N - 1) * delay]. *)
Theorem batch_sleeps_bounded now resp symbols delay :
  count_sleeps (fst (fetch_multiple_symbols now resp symbols delay)) <= List.length symbols - 1.
Proof.
  unfold fetch_multiple_symbols.
  destruct (fetch_loop now resp delay (List.length symbols) 0 symbols (mkfetch_state [] []))
    as [st r] eqn:E.
  apply fetch_loop_sleeps in E. simpl in *. lia.
Qed.

(** ** The store phase *)

Section StoreFacts2.
Variable dbfail : nat -> bool.

(** The inner loop appends to the rows of the session only records of its
    batch, one per record counted as stored. *)
Lemma store_records_growth records st st' r :
  store_records dbfail records st = (st', r) ->
  exists new, committed (sdb st') ++ pending (sdb st')
                = committed (sdb st) ++ pending (sdb st) ++ new /\
              (forall x, In x new -> In x records) /\
              total_stored st' = total_stored st + List.length new.
Proof.
  revert st. induction records as [|record rest IH]; intros st H; simpl in H.
  - inversion H; subst. exists []. rewrite !app_nil_r. split; [reflexivity|split; [intros _ []|simpl; lia]].
  - unfold query_first in H. destruct (dbfail (ops (sdb st))).
    + inversion H; subst; simpl. exists []. rewrite !app_nil_r.
      split; [reflexivity|split; [intros _ []|simpl; lia]].
    + destruct (find (same_key (symbol record) (date record))
                  (committed (sdb st) ++ pending (sdb st))).
      * apply IH in H as (new & Hn & Hin & Hs); simpl in *.
        exists new. split; [exact Hn|split; [intros x Hx; right; now apply Hin|exact Hs]].
      * apply IH in H as (new & Hn & Hin & Hs); simpl in *.
        exists (record :: new). split.
        -- rewrite Hn, <- !app_assoc. reflexivity.
        -- split; [intros x [<-|Hx]; [now left|right; now apply Hin]|]. simpl. lia.
Qed.

(** The per-symbol loop appends to the rows of the session only records
    of the batch, one per record counted as stored. *)
Lemma store_symbols_growth data st st' r :
  store_symbols dbfail data st = (st', r) ->
  exists new, committed (sdb st') ++ pending (sdb st')
                = committed (sdb st) ++ pending (sdb st) ++ new /\
              (forall x, In x new -> exists sym records, In (sym, records) data /\ In x records) /\
              total_stored st' = total_stored st + List.length new.
Proof.
  revert st. induction data as [|[sym records] rest IH]; intros st H; simpl in H.
  - inversion H; subst. exists []. rewrite !app_nil_r. split; [reflexivity|split; [intros _ []|simpl; lia]].
  - destruct (store_records dbfail records st) as [st1 r1] eqn:E1.
    apply store_records_growth in E1 as (new1 & Hn1 & Hin1 & Hs1).
    assert (Hin1' : forall x, In x new1 -> exists sym' records',
                      In (sym', records') ((sym, records) :: rest) /\ In x records')
      by (intros x Hx; exists sym, records; split; [now left|now apply Hin1]).
    destruct r1 as [u1|e1].
    + unfold commit in H. destruct (dbfail (ops (sdb st1))); simpl in H.
      * inversion H; subst; simpl. exists new1. split; [exact Hn1|split; [exact Hin1'|exact Hs1]].
      * apply IH in H as (new & Hn & Hin & Hs); simpl in *.
        exists (new1 ++ new). split.
        -- rewrite Hn, Hn1. now rewrite <- !app_assoc.
        -- split.
           ++ intros x Hx. apply in_app_or in Hx as [Hx|Hx]; [now apply Hin1'|].
              destruct (Hin x Hx) as (sym' & records' & Hd & Hr).
              exists sym', records'. split; [now right|exact Hr].
           ++ rewrite length_app. lia.
    + inversion H; subst. exists new1. split; [exact Hn1|split; [exact Hin1'|exact Hs1]].
Qed.

(** A completed per-symbol loop leaves nothing pending. *)
Lemma store_symbols_pending data st st' u :
  pending (sdb st) = [] ->
  store_symbols dbfail data st = (st', Ok u) -> pending (sdb st') = [].
Proof.
  revert st. induction data as [|[sym records] rest IH]; intros st Hp H; simpl in H.
  - inversion H; subst. exact Hp.
  - destruct (store_records dbfail records st) as [st1 [u1|e1]]; [|discriminate].
    unfold commit in H. destruct (dbfail (ops (sdb st1))); simpl in H; [discriminate|].
    eapply IH; [|exact H]; reflexivity.
Qed.

(** Without database failures, a batch of empty lists commits nothing. *)
Lemma store_symbols_empty data st :
  (forall k, dbfail k = false) ->
  (forall k v, In (k, v) data -> v = []) ->
  pending (sdb st) = [] ->
  exists st', store_symbols dbfail data st = (st', Ok tt) /\
              committed (sdb st') = committed (sdb st).
Proof.
  intros Hf. revert st. induction data as [|[sym records] rest IH]; intros st Hd Hp; simpl.
  - exists st. split; reflexivity.
  - rewrite (Hd sym records (or_introl eq_refl)). simpl.
    unfold commit. rewrite Hf. simpl.
    destruct (IH (mkstore_state (mkdb (committed (sdb st) ++ pending (sdb st)) [] (S (ops (sdb st))))
                    (total_stored st) (total_skipped st)))
      as (st' & H & Hc); [intros k v Hin; apply (Hd k v); now right|reflexivity|].
    exists st'. split; [exact H|]. rewrite Hc. simpl. rewrite Hp. apply app_nil_r.
Qed.
End StoreFacts2.

(** X7. A store phase, completed or rolled back, only appends rows to the
    table, and every row it appends is a record of the batch it was given:
    it never changes or removes a row and never invents one. *)
Theorem store_rows_from_batch dbfail data d :
  exists new, committed (fst (store_all_data dbfail data d)) = committed d ++ new /\
    (forall x, In x new -> exists sym records, In (sym, records) data /\ In x records).
Proof.
  unfold store_all_data.
  destruct (store_symbols dbfail data (mkstore_state (mkdb (committed d) [] (ops d)) 0 0))
    as [st r] eqn:E.
  pose proof (store_symbols_shape _ _ _ _ _ E) as ([new1 Hc] & _).
  apply store_symbols_growth in E as (new & Hn & Hin & _). simpl in *.
  assert (Hfin : committed (fst (match r with
                                 | Ok _ => (close (sdb st), Some (total_stored st, total_skipped st))
                                 | Raise _ => (close (rollback (sdb st)), None)
                                 end)) = committed (sdb st)) by (destruct r; reflexivity).
  rewrite Hfin. exists new1. split; [exact Hc|].
  intros x Hx. apply Hin. rewrite Hc, <- app_assoc in Hn. apply app_inv_head in Hn.
  rewrite <- Hn. apply in_or_app. now left.
Qed.

(** X8. When the store phase completes, the rows it appended to the table
    are exactly as many as the stored count it logs, and every record of the
    batch then has its [(symbol, date)] key in the table. *)
Theorem store_success_counts dbfail data d d' stored skipped :
  store_all_data dbfail data d = (d', Some (stored, skipped)) ->
  exists new, committed d' = committed d ++ new /\ List.length new = stored /\
    (forall sym records x, In (sym, records) data -> In x records ->
       existsb (same_key (symbol x) (date x)) (committed d') = true).
Proof.
  unfold store_all_data.
  destruct (store_symbols dbfail data (mkstore_state (mkdb (committed d) [] (ops d)) 0 0))
    as [st [u|e]] eqn:E; intros H; inversion H; subst; clear H.
  assert (Hp : pending (sdb st) = []) by (eapply store_symbols_pending; [|exact E]; reflexivity).
  pose proof (store_symbols_ok _ _ _ _ _ E) as [Hall _].
  apply store_symbols_growth in E as (new & Hn & _ & Hs). simpl in *.
  rewrite Hp, !app_nil_r in Hn.
  exists new. split; [exact Hn|split; [lia|exact Hall]].
Qed.

Lemma store_success_counts_witness :
  store_all_data no_failure sample_all_data empty_db
    = (fst (store_all_data no_failure sample_all_data empty_db), Some (2, 0)) /\
  exists new, committed (fst (store_all_data no_failure sample_all_data empty_db))
                = committed empty_db ++ new /\ List.length new = 2 /\
    (forall sym records x, In (sym, records) sample_all_data -> In x records ->
       existsb (same_key (symbol x) (date x))
         (committed (fst (store_all_data no_failure sample_all_data empty_db))) = true).
Proof.
  split; [vm_compute; reflexivity|].
  apply (store_success_counts no_failure sample_all_data empty_db _ 2 0).
  vm_compute. reflexivity.
Defined.

(** X9. A run in which no fetch gives a non-empty series, with the setup
    and the database working, returns [True]: the pipeline reports success
    and goes on to the report, with the table unchanged. *)
Theorem run_all_fetches_fail dbfail now resp symbols d :
  (forall i s, fetched_nonempty resp i s = false) ->
  (forall k, dbfail k = false) ->
  exists d', run dbfail true true now resp symbols d = (d', Ok true) /\
             committed d' = committed d.
Proof.
  intros Hf Hdb. unfold run, fetch_and_store_data, fetch_multiple_symbols. simpl.
  destruct (fetch_loop_all_failed now resp 12 (List.length symbols) 0 symbols
              (mkfetch_state [] []) Hf) as [Hr Hd]; [intros k v []|].
  destruct (fetch_loop now resp 12 (List.length symbols) 0 symbols (mkfetch_state [] []))
    as [st r]. simpl in Hr, Hd. subst r. simpl.
  unfold store_all_data.
  destruct (store_symbols_empty dbfail (all_data st)
              (mkstore_state (mkdb (committed d) [] (ops d)) 0 0) Hdb Hd eq_refl)
    as (st' & H & Hc).
  rewrite H. simpl. exists (close (sdb st')). split; [reflexivity|exact Hc].
Qed.

Lemma run_all_fetches_fail_witness :
  exists d', run no_failure true true 0 (fun _ _ => note_body) pipeline_symbols empty_db
               = (d', Ok true) /\ committed d' = committed empty_db.
Proof.
  apply (run_all_fetches_fail no_failure 0 (fun _ _ => note_body) pipeline_symbols empty_db).
  - intros i s. vm_compute. reflexivity.
  - intros k. reflexivity.
Defined.

(** ** Dates and [ORDER BY date DESC] *)











(** ** The report *)














